(** * Behavioural analytics engine of Hamail-Backend: a shallow embedding.

    JavaScript numbers are modelled as exact rationals [Q]; timestamps
    ([entryTime], [exitTime]) as milliseconds since the epoch in [Z];
    nullable numeric fields as [option Q] ([None] is [null]).
    [Math.round] is [floor (x + 1/2)]. *)

From Stdlib Require Import String.
From Stdlib Require Import QArith Qround Qabs Qminmax ZArith List Bool Lia Lqa.
From Stdlib Require Import Sorting.Permutation Sorting.Sorted.
Import ListNotations.
Open Scope Q_scope.

(* ------------------------------------------------------------------ *)
(** ** Data model (models/enums.js, trade and trading-plan schemas) *)

Inductive TradingSession := LONDON | NY | ASIA.

Definition session_eqb (a b : TradingSession) : bool :=
  match a, b with
  | LONDON, LONDON | NY, NY | ASIA, ASIA => true
  | _, _ => false
  end.

Inductive PsychologicalState := STABLE | OVEREXTENDED | HESITANT | AGGRESSIVE.

Inductive RiskLevel := LOW | MEDIUM | HIGH.

Inductive PerformanceInsightType := POSITIVE | CONSTRUCTIVE.

Record Trade := mkTrade {
  entryTime : Z;
  exitTime : Z;
  profitLoss : Q;
  riskPercentUsed : option Q;
  riskRewardAchieved : option Q;
  targetPercentAchieved : option Q;
  session : TradingSession;
  stopLossHit : bool;
  exitedEarly : bool;
  notes : string
}.

Record TradingPlan := mkPlan {
  maxTradesPerDay : Q;
  riskPercentPerTrade : Q;
  targetRiskRewardRatio : Q;
  preferredSessions : list TradingSession
}.

(* ------------------------------------------------------------------ *)
(** ** JavaScript helpers *)

(** [Math.round] *)
Definition js_round (x : Q) : Z := Qfloor (x + (1 # 2)).

(** Strict comparison of rationals. *)
Definition Qlt_bool (a b : Q) : bool := negb (Qle_bool b a).

(** [x || d] on a number: [0] is falsy. *)
Definition or_default (x d : Q) : Q := if Qeq_bool x 0 then d else x.

(** Truthiness of a nullable number ([null] and [0] are falsy). *)
Definition truthy (o : option Q) : bool :=
  match o with Some x => negb (Qeq_bool x 0) | None => false end.

(** A nullable number in a relational comparison: [null] coerces to [0]. *)
Definition num_of (o : option Q) : Q :=
  match o with Some x => x | None => 0 end.

Definition is_some {A} (o : option A) : bool :=
  match o with Some _ => true | None => false end.

Definition qlen {A} (l : list A) : Q := inject_Z (Z.of_nat (length l)).

Definition qsum (l : list Q) : Q := fold_left Qplus l 0.

Definition Qmax1 (a : Q) : Q := Qmax 1 a.

Definition includes (ss : list TradingSession) (s : TradingSession) : bool :=
  existsb (session_eqb s) ss.

(** [Array.prototype.sort] with a numeric comparator is stable: insertion
    sort on a key.  [insert_by] puts [x], which precedes every element of
    [l] in the input, ahead of the elements of [l] with the same key. *)
Fixpoint insert_by {A} (key : A -> Z) (x : A) (l : list A) : list A :=
  match l with
  | [] => [x]
  | y :: l' => if (key y <? key x)%Z then y :: insert_by key x l' else x :: l
  end.

Fixpoint sort_by {A} (key : A -> Z) (l : list A) : list A :=
  match l with
  | [] => []
  | x :: l' => insert_by key x (sort_by key l')
  end.

Fixpoint insert_q (x : Q) (l : list Q) : list Q :=
  match l with
  | [] => [x]
  | y :: l' => if Qle_bool y x then y :: insert_q x l' else x :: l
  end.

Fixpoint sort_q (l : list Q) : list Q :=
  match l with
  | [] => []
  | x :: l' => insert_q x (sort_q l')
  end.

Definition by_entry (t : Trade) : Z := entryTime t.

(** [new Date(ms).toISOString().split('T')[0]]: the UTC calendar day. *)
Definition dayKey (ms : Z) : Z := (ms / 86400000)%Z.

(* ------------------------------------------------------------------ *)
(** ** utils/computeMedian.js *)

Definition computeMedian (sorted : list Q) : Q :=
  match sorted with
  | [] => 0
  | _ =>
    let n := length sorted in
    let mid := Nat.div n 2 in
    if Nat.odd n then nth mid sorted 0
    else (nth (mid - 1) sorted 0 + nth mid sorted 0) / 2
  end.

(* ------------------------------------------------------------------ *)
(** ** services/analysis/metrics.js *)

Record BasicMetrics := mkBasic {
  bm_winRate : Q;
  bm_avgRiskUsed : Q;
  bm_avgRR : Q;
  bm_medianTargetPct : Q;
  bm_nearTargetHits : nat;
  bm_earlyExits : nat
}.

(** Values of the non-null entries of a nullable field. *)
Definition nonnull (f : Trade -> option Q) (trades : list Trade) : list Q :=
  flat_map (fun t => match f t with Some x => [x] | None => [] end) trades.

(** Average over a list, or a default when it is empty. *)
Definition avg_or (xs : list Q) (d : Q) : Q :=
  match xs with [] => d | _ => qsum xs / qlen xs end.

Definition calculateBasicMetrics (trades : list Trade) : BasicMetrics :=
  match trades with
  | [] => mkBasic 0 0 0 0 0 0
  | _ =>
    let totalTrades := qlen trades in
    let winCount := length (filter (fun t => Qlt_bool 0 (profitLoss t)) trades) in
    let winRate := inject_Z (Z.of_nat winCount) / totalTrades in
    let avgRiskUsed := avg_or (nonnull riskPercentUsed trades) 0 in
    let avgRR := avg_or (nonnull riskRewardAchieved trades) 0 in
    let targetPercents := nonnull targetPercentAchieved trades in
    let medianTargetPct := computeMedian (sort_q targetPercents) in
    let nearTargetHits :=
      length (filter (fun t => match targetPercentAchieved t with
                               | Some p => Qle_bool 80 p | None => false end) trades) in
    let earlyExits :=
      length (filter (fun t =>
        let profitableEarly :=
          match targetPercentAchieved t with
          | Some p => Qlt_bool 0 (profitLoss t) && Qle_bool 30 p && Qle_bool p 80
          | None => false
          end in
        exitedEarly t || profitableEarly) trades) in
    mkBasic winRate avgRiskUsed avgRR medianTargetPct nearTargetHits earlyExits
  end.

Record DayMetrics := mkDay {
  dm_daysWithTrades : nat;
  dm_exceededDays : nat;
  dm_outsideSessionDays : nat
}.

(** [tradesByDay[k] = (tradesByDay[k] || 0) + 1]: an association list in
    key-insertion order. *)
Fixpoint bump (k : Z) (m : list (Z * nat)) : list (Z * nat) :=
  match m with
  | [] => [(k, 1%nat)]
  | (k', c) :: m' => if (k' =? k)%Z then (k', S c) :: m' else (k', c) :: bump k m'
  end.

(** [outsideSessionByDay[k] = true]: the set of keys, in insertion order. *)
Definition mark (k : Z) (s : list Z) : list Z :=
  if existsb (Z.eqb k) s then s else s ++ [k].

Definition day_step (plan : TradingPlan) (acc : list (Z * nat) * list Z) (t : Trade)
  : list (Z * nat) * list Z :=
  let '(byDay, outside) := acc in
  let k := dayKey (entryTime t) in
  let isOutside := negb (includes (preferredSessions plan) (session t)) in
  (bump k byDay, if isOutside then mark k outside else outside).

Definition day_tables (trades : list Trade) (plan : TradingPlan) :=
  fold_left (day_step plan) trades ([], []).

(** [cnt > (plan.maxTradesPerDay || Infinity)] *)
Definition exceeds_cap (plan : TradingPlan) (cnt : nat) : bool :=
  if Qeq_bool (maxTradesPerDay plan) 0 then false
  else Qlt_bool (maxTradesPerDay plan) (inject_Z (Z.of_nat cnt)).

Definition calculateDayMetrics (trades : list Trade) (plan : TradingPlan) : DayMetrics :=
  let '(byDay, outside) := day_tables trades plan in
  let daysWithTrades := match length byDay with 0%nat => 1%nat | n => n end in
  let exceededDays := length (filter (fun kc => exceeds_cap plan (snd kc)) byDay) in
  mkDay daysWithTrades exceededDays (length outside).

Record RiskSpike := mkSpike { rs_riskSpike : bool; rs_last3Breaches : nat }.

Definition calculateRiskSpike (trades : list Trade) (planRisk : Q) : RiskSpike :=
  match trades with
  | [] => mkSpike false 0
  | _ =>
    let recentAvgRisk := avg_or (nonnull riskPercentUsed trades) planRisk in
    let last3 := firstn 3 trades in
    let threshold := Qmax (planRisk * (13 # 10)) (recentAvgRisk * (13 # 10)) in
    let last3Breaches :=
      length (filter (fun t => match riskPercentUsed t with
                               | Some r => Qlt_bool threshold r | None => false end) last3) in
    mkSpike (Nat.leb 2 last3Breaches) last3Breaches
  end.

Definition calculateRiskBreaches (trades : list Trade) (planRisk : Q) : nat :=
  length (filter (fun t => match riskPercentUsed t with
                           | Some r => Qlt_bool (planRisk * (3 # 2)) r | None => false end) trades).

(* ------------------------------------------------------------------ *)
(** ** Plan adherence (tradingPlan.service.js, [calculatePlanAdherence]).
    The four components are always numbers, so every weight is kept and
    the weight sum is [1]. *)

Definition qn (n : nat) : Q := inject_Z (Z.of_nat n).

Definition calculatePlanAdherence (m : BasicMetrics) (riskBreaches : nat)
  (d : DayMetrics) (totalTrades : nat) : Z :=
  let n := Qmax1 (qn totalTrades) in
  let days := Qmax1 (qn (dm_daysWithTrades d)) in
  let riskDiscipline := 1 - qn riskBreaches / n in
  let sessionAdherence := 1 - qn (dm_outsideSessionDays d) / days in
  let tradeCountDiscipline := 1 - qn (dm_exceededDays d) / days in
  let targetProgress := Qmin 1 (qn (bm_nearTargetHits m) / n) in
  let weightSum := (4 # 10) + (25 # 100) + (25 # 100) + (1 # 10) in
  let adherenceWeighted :=
    (riskDiscipline * (4 # 10) + sessionAdherence * (25 # 100)
     + tradeCountDiscipline * (25 # 100) + targetProgress * (1 # 10)) / weightSum in
  js_round (adherenceWeighted * 100).

(* ------------------------------------------------------------------ *)
(** ** Confidence (unnamed/part_016, [calculateConfidence]) *)

Definition calculateConfidence (m : BasicMetrics) (planAdherence : Z) (planRisk : Q)
  (totalTrades : nat) : Z :=
  let sampleFactor := qn (Nat.min totalTrades 10) / 10 in
  let discipline := inject_Z planAdherence / 100 in
  let ratio := if Qeq_bool planRisk 0 then 1 else bm_avgRiskUsed m / planRisk in
  let signalStrength :=
    Qmax (Qabs (ratio - 1))
      (Qmax (Qabs (bm_winRate m - (1 # 2)) * 2)
            (Qabs (or_default (bm_medianTargetPct m) 0 / 100 - (6 # 10)))) in
  let c := js_round (100 * ((1 # 2) * discipline + (3 # 10) * sampleFactor
                             + (2 # 10) * signalStrength)) in
  let c := Z.max 10 (Z.min 95 c) in
  if (Z.of_nat totalTrades <? 5)%Z then Z.min c 40 else c.

(* ------------------------------------------------------------------ *)
(** ** State determination (analysis/stateDetermination.js).
    Indicators and recommendations are presentation data; the state is
    what the claims are about. *)

Record RiskMetrics := mkRisk {
  rm_riskSpike : bool;
  rm_riskBreaches : nat;
  rm_avgRiskUsed : Q
}.

Definition overextended_cond (d : DayMetrics) : bool :=
  let days := qn (dm_daysWithTrades d) in
  Nat.ltb 0 (dm_daysWithTrades d)
  && (Qle_bool (33 # 100) (qn (dm_exceededDays d) / days)
      || Qle_bool (33 # 100) (qn (dm_outsideSessionDays d) / days)).

Definition aggressive_cond (r : RiskMetrics) (planRisk : Q) (totalTrades : nat) : bool :=
  rm_riskSpike r
  || Qle_bool (1 # 4) (qn (rm_riskBreaches r) / Qmax1 (qn totalTrades))
  || Qlt_bool (planRisk * (5 # 4)) (rm_avgRiskUsed r).

Definition hesitant_cond (m : BasicMetrics) (totalTrades : nat) : bool :=
  Qle_bool (4 # 10) (qn (bm_earlyExits m) / Qmax1 (qn totalTrades))
  || (Qlt_bool (bm_medianTargetPct m) 60 && Qle_bool (bm_winRate m) (6 # 10)).

Definition determineState (m : BasicMetrics) (d : DayMetrics) (r : RiskMetrics)
  (planRisk : Q) (totalTrades : nat) : PsychologicalState :=
  if overextended_cond d then OVEREXTENDED
  else if aggressive_cond r planRisk totalTrades then AGGRESSIVE
  else if hesitant_cond m totalTrades then HESITANT
  else STABLE.

(* ------------------------------------------------------------------ *)
(** ** analyzePsychologicalState (analysis/performanceInsights.js, second module) *)

Record StateResult := mkState {
  sr_state : PsychologicalState;
  sr_confidence : Z;
  sr_planAdherence : Z;
  sr_analyzedTradeCount : nat
}.

Definition analyzePsychologicalState (trades : list Trade) (plan : option TradingPlan)
  : StateResult :=
  match trades, plan with
  | [], _ | _, None => mkState STABLE 50 50 0
  | _, Some p =>
    let analyzedTrades := firstn 10 trades in
    let totalTrades := length analyzedTrades in
    let planRisk := or_default (riskPercentPerTrade p) 0 in
    let basicMetrics := calculateBasicMetrics analyzedTrades in
    let dayMetrics := calculateDayMetrics analyzedTrades p in
    let riskSpikeData := calculateRiskSpike analyzedTrades planRisk in
    let riskBreaches := calculateRiskBreaches analyzedTrades planRisk in
    let riskMetrics := mkRisk (rs_riskSpike riskSpikeData) riskBreaches
                              (bm_avgRiskUsed basicMetrics) in
    let planAdherence := calculatePlanAdherence basicMetrics riskBreaches dayMetrics totalTrades in
    let state := determineState basicMetrics dayMetrics riskMetrics planRisk totalTrades in
    let confidence := calculateConfidence basicMetrics planAdherence planRisk totalTrades in
    mkState state confidence planAdherence totalTrades
  end.

(* ------------------------------------------------------------------ *)
(** ** utils/stateTrigger.js *)

Definition getStateTrigger (t : Trade) : string :=
  if Qlt_bool 0 (profitLoss t) then "Profitable trade"
  else if Qlt_bool (profitLoss t) 0 then "Losing trade"
  else if exitedEarly t then "Early exit"
  else if stopLossHit t then "Stop loss hit"
  else "Trade execution".

(* ------------------------------------------------------------------ *)
(** ** Temporal state history (analysis/stateHistory.js) *)

(** [Math.round(Math.sqrt(v))] for [v >= 0], computed exactly: the [k]
    with [k - 1/2 <= sqrt v < k + 1/2] (see [round_sqrt_spec]). *)
Definition round_sqrt (v : Q) : Z := ((Z.sqrt (Qfloor (4 * v)) + 1) / 2)%Z.

Record HistoryPoint := mkPoint {
  hp_timestamp : Z;
  hp_state : PsychologicalState;
  hp_confidence : Z;
  hp_trigger : string;
  hp_profitLoss : Q;
  hp_riskPercentUsed : option Q
}.

Record HistorySummary := mkSummary {
  hs_totalChanges : nat;
  hs_mostCommonState : PsychologicalState;
  hs_averageConfidence : Z;
  hs_volatility : Q
}.

Record HistoryResult := mkHistory {
  hr_history : list HistoryPoint;
  hr_summary : HistorySummary
}.

Definition state_eqb (a b : PsychologicalState) : bool :=
  match a, b with
  | STABLE, STABLE | OVEREXTENDED, OVEREXTENDED
  | HESITANT, HESITANT | AGGRESSIVE, AGGRESSIVE => true
  | _, _ => false
  end.

(** [arr.slice(from, to)] for [0 <= from <= to]. *)
Definition slice {A} (from to : nat) (l : list A) : list A :=
  firstn (to - from) (skipn from l).

(** One iteration of the [for] loop: the emitted points (in reverse) and
    [lastState]. *)
Record LoopState := mkLoop {
  ls_points : list HistoryPoint;
  ls_last : option StateResult
}.

Definition history_step (sorted : list Trade) (p : TradingPlan) (limit : Z)
  (acc : LoopState) (i : nat) : LoopState :=
  if (Z.of_nat (length (ls_points acc)) <? limit)%Z then
    let trade := nth i sorted (mkTrade 0 0 0 None None None LONDON false false "") in
    let recentTrades := slice (i - 4) (i + 1) sorted in
    let st := analyzePsychologicalState recentTrades (Some p) in
    let emit :=
      match ls_last acc with
      | None => true
      | Some l => negb (state_eqb (sr_state l) (sr_state st))
                  || (15 <? Z.abs (sr_confidence l - sr_confidence st))%Z
      end in
    if emit then
      mkLoop (mkPoint (entryTime trade) (sr_state st) (sr_confidence st)
                (getStateTrigger trade) (profitLoss trade) (riskPercentUsed trade)
              :: ls_points acc) (Some st)
    else acc
  else acc.

(** [stateCounts[st] = (stateCounts[st] || 0) + 1], keys in insertion order. *)
Fixpoint count_state (s : PsychologicalState) (m : list (PsychologicalState * nat))
  : list (PsychologicalState * nat) :=
  match m with
  | [] => [(s, 1%nat)]
  | (s', c) :: m' => if state_eqb s' s then (s', S c) :: m' else (s', c) :: count_state s m'
  end.

(** [Object.keys(stateCounts).reduce((a, b) => (stateCounts[a] > stateCounts[b] ? a : b))] *)
Definition mostCommon (m : list (PsychologicalState * nat)) : PsychologicalState :=
  match m with
  | [] => STABLE
  | x :: rest =>
    fst (fold_left (fun a b => if Nat.ltb (snd b) (snd a) then a else b) rest x)
  end.

Definition qz (z : Z) : Q := inject_Z z.

(** The summary of stateHistory.js: [averageConfidence] is rounded before
    it is used as the centre of the variance. *)
Definition history_summary (points : list HistoryPoint) : HistorySummary :=
  let states := map hp_state points in
  let confidences := map hp_confidence points in
  let stateCounts := fold_left (fun m s => count_state s m) states [] in
  let averageConfidence :=
    match confidences with
    | [] => 50%Z
    | _ => js_round (qz (fold_left Z.add confidences 0%Z) / qlen confidences)
    end in
  let variance :=
    match confidences with
    | [] => 0
    | _ => fold_left (fun s c => s + qz ((c - averageConfidence) * (c - averageConfidence))%Z)
             confidences 0 / qlen confidences
    end in
  let volatility := qz (round_sqrt variance) / 100 in
  mkSummary (length points) (mostCommon stateCounts) averageConfidence volatility.

(** [analyzeStateHistory(trades, plan, limit)]: the result, and the contents
    of the caller's [trades] array after the call ([trades.sort] sorts that
    array in place and returns it). *)
Definition analyzeStateHistory (trades : list Trade) (plan : option TradingPlan) (limit : Z)
  : HistoryResult * list Trade :=
  match trades, plan with
  | [], _ | _, None => (mkHistory [] (mkSummary 0 STABLE 50 0), trades)
  | _, Some p =>
    let sortedTrades := sort_by by_entry trades in
    let final := fold_left (history_step sortedTrades p limit)
                   (seq 0 (length sortedTrades)) (mkLoop [] None) in
    let history := rev (ls_points final) in
    (mkHistory (firstn (Z.to_nat limit) history) (history_summary history), sortedTrades)
  end.

(** The volatility as the spec states it: the population standard deviation
    of the emitted confidences about their exact mean, over [100], rounded
    to two decimals. *)
Definition spec_volatility (confidences : list Z) : Q :=
  match confidences with
  | [] => 0
  | _ =>
    let mean := qz (fold_left Z.add confidences 0%Z) / qlen confidences in
    let variance := fold_left (fun s c => s + (qz c - mean) * (qz c - mean)) confidences 0
                    / qlen confidences in
    qz (round_sqrt variance) / 100
  end.

(* ------------------------------------------------------------------ *)
(** ** Session forecast (analysis/performanceInsights.js, third module) *)

Record Forecast := mkForecast {
  fc_session : TradingSession;
  fc_predictedBias : string;
  fc_riskLevel : RiskLevel;
  fc_forecast : string;
  fc_recommendations : list string;
  fc_basedOnState : PsychologicalState
}.

Definition riskLevel_eqb (a b : RiskLevel) : bool :=
  match a, b with
  | LOW, LOW | MEDIUM, MEDIUM | HIGH, HIGH => true
  | _, _ => false
  end.

Definition analyzeSessionForecast (trades : list Trade) (sess : option TradingSession)
  (plan : option TradingPlan) (currentState : option PsychologicalState) : Forecast :=
  let upperSession := match sess with Some s => s | None => LONDON end in
  let basedOn := match currentState with Some s => s | None => STABLE end in
  match trades, plan with
  | [], _ | _, None =>
    mkForecast upperSession "NEUTRAL"%string MEDIUM "NEUTRAL"%string
      ["Log more trades in this session to improve forecast"%string] basedOn
  | _, Some p =>
    let totalTrades := qlen trades in
    let avgRisk := avg_or (nonnull riskPercentUsed trades) (or_default (riskPercentPerTrade p) 0) in
    let outsideSessionTrades :=
      length (filter (fun t => negb (includes (preferredSessions p) (session t))) trades) in
    let recentLossStreak :=
      forallb (fun t => Qle_bool (profitLoss t) 0) (firstn 3 trades)
      && Nat.leb 3 (length trades) in
    (* predictedBias, riskLevel, recommendations (in reverse) *)
    let '(b1, r1, rec1) :=
      if recentLossStreak
      then ("Revenge trading risk"%string, HIGH,
            ["Consider pausing before new entries; reset after losses"%string])
      else ("NEUTRAL"%string, MEDIUM, []) in
    let '(b2, r2, rec2) :=
      if Qlt_bool (or_default (riskPercentPerTrade p) 0 * (5 # 4)) avgRisk
      then ((if String.eqb b1 "NEUTRAL"%string then "Risk escalation tendency"%string else b1)%string, HIGH,
            "Reduce risk per trade to plan level"%string :: rec1)
      else (b1, r1, rec1) in
    let '(b3, r3, rec3) :=
      if Qle_bool (1 # 5) (qn outsideSessionTrades / totalTrades)
      then ((if String.eqb b2 "NEUTRAL"%string then "Session drift"%string else b2)%string,
            (if riskLevel_eqb r2 HIGH then r2 else MEDIUM),
            "Trade only in preferred sessions for this period"%string :: rec2)
      else (b2, r2, rec2) in
    let rec4 := if String.eqb b3 "NEUTRAL"%string
                then "Proceed per plan; monitor emotions after first outcome"%string :: rec3
                else rec3 in
    let forecast :=
      match r3 with HIGH => "NEGATIVE"%string | LOW => "POSITIVE"%string | MEDIUM => "NEUTRAL"%string end in
    mkForecast upperSession b3 r3 forecast (rev rec4) basedOn
  end.

(* ------------------------------------------------------------------ *)
(** ** Performance insights (analysis/performanceInsights.js) *)

Record Insight := mkInsight {
  in_type : PerformanceInsightType;
  in_title : string
}.

Record PerformanceStats := mkStats {
  ps_winRate : Z;
  ps_avgRiskReward : Q;
  ps_planAdherence : Z;
  ps_tradesThisWeek : nat
}.

Record InsightsResult := mkInsights {
  ir_insights : list Insight;
  ir_stats : PerformanceStats
}.

Definition insightType_eqb (a b : PerformanceInsightType) : bool :=
  match a, b with
  | POSITIVE, POSITIVE | CONSTRUCTIVE, CONSTRUCTIVE => true
  | _, _ => false
  end.

Definition has_type (ty : PerformanceInsightType) (l : list Insight) : bool :=
  existsb (fun i => insightType_eqb (in_type i) ty) l.

(** [trades.filter((t) => t.exitedEarly || (t.targetPercentAchieved != null
    && t.targetPercentAchieved < 50)).length] *)
Definition insightEarlyExits (trades : list Trade) : nat :=
  length (filter (fun t => exitedEarly t || match targetPercentAchieved t with
                                            | Some x => Qlt_bool x 50 | None => false end)
            trades).

(** [now] is the clock reading of [new Date()]. *)
Definition analyzePerformanceInsights (now : Z) (trades : list Trade)
  (plan : option TradingPlan) : InsightsResult :=
  match trades, plan with
  | [], _ | _, None =>
    mkInsights [mkInsight CONSTRUCTIVE "Add data to unlock insights"%string] (mkStats 0 0 0 0)
  | _, Some p =>
    let totalTrades := qlen trades in
    let wins := length (filter (fun t => Qlt_bool 0 (profitLoss t)) trades) in
    let winRate := js_round (qn wins / totalTrades * 100) in
    let rrs := nonnull riskRewardAchieved trades in
    let avgRR := match rrs with
                 | [] => 0
                 | _ => qz (js_round (qsum rrs / qlen rrs * 100)) / 100
                 end in
    let riskBreachesRatio :=
      qn (length (filter (fun t => match riskPercentUsed t with
                                   | Some r => Qlt_bool (or_default (riskPercentPerTrade p) 0 * (3 # 2)) r
                                   | None => false end) trades)) / totalTrades in
    let outsideSessionRatio :=
      qn (length (filter (fun t => negb (includes (preferredSessions p) (session t))) trades))
      / totalTrades in
    let planAdherence := js_round ((1 - riskBreachesRatio + (1 - outsideSessionRatio)) / 2 * 100) in
    let startOfWeek := (now - 7 * 86400000)%Z in
    let tradesThisWeek := length (filter (fun t => (startOfWeek <=? entryTime t)%Z) trades) in
    let positive :=
      if (70 <=? planAdherence)%Z then [mkInsight POSITIVE "Strong plan adherence"%string]
      else if (60 <=? winRate)%Z then [mkInsight POSITIVE "Solid win rate"%string]
      else [] in
    let earlyExits := insightEarlyExits trades in
    let constructive :=
      if Qle_bool (3 # 10) (qn earlyExits / totalTrades)
      then [mkInsight CONSTRUCTIVE "Exiting too early"%string]
      else if (planAdherence <? 60)%Z then [mkInsight CONSTRUCTIVE "Improve plan adherence"%string]
      else [] in
    let insights := positive ++ constructive in
    let insights :=
      if negb (has_type POSITIVE insights)
      then insights ++ [mkInsight POSITIVE "Consistent practice"%string] else insights in
    let insights :=
      if negb (has_type CONSTRUCTIVE insights)
      then insights ++ [mkInsight CONSTRUCTIVE "Refine exits"%string] else insights in
    mkInsights insights (mkStats winRate avgRR planAdherence tradesThisWeek)
  end.

(** The title of the POSITIVE insight the rule selects. *)
Definition positive_title (planAdherence winRate : Z) : string :=
  if (70 <=? planAdherence)%Z then "Strong plan adherence"
  else if (60 <=? winRate)%Z then "Solid win rate"
  else "Consistent practice".

(** The title of the CONSTRUCTIVE insight the rule selects. *)
Definition constructive_title (earlyExitRatio : Q) (planAdherence : Z) : string :=
  if Qle_bool (3 # 10) earlyExitRatio then "Exiting too early"
  else if (planAdherence <? 60)%Z then "Improve plan adherence"
  else "Refine exits".

(* ------------------------------------------------------------------ *)
(** ** Breathwork trigger (zentra/consistencyTrend.js, second module) *)

(** [countImpulsiveTradesLastHour]; [now] is [Date.now()]. *)
Definition impulsive_pairs (sorted : list Trade) : nat :=
  length (filter (fun pc =>
            let diff := (entryTime (snd pc) - exitTime (fst pc))%Z in
            (diff <? 1800000)%Z && (0 <=? diff)%Z)
          (combine sorted (tl sorted))).

Definition countImpulsiveTradesLastHour (now : Z) (trades : list Trade) : nat :=
  if Nat.ltb (length trades) 2 then 0
  else
    let oneHourAgo := (now - 3600000)%Z in
    let sorted := sort_by by_entry (filter (fun t => (oneHourAgo <=? entryTime t)%Z) trades) in
    if Nat.ltb (length sorted) 2 then 0 else impulsive_pairs sorted.

Definition calculateBatteryDrop (startBattery currentBattery : Q) : Q :=
  Qmax 0 (startBattery - currentBattery).

Inductive TriggerType := high_volatility | low_battery | impulsive_trades | battery_drop.

Definition is_severe (t : TriggerType) : bool :=
  match t with impulsive_trades => false | _ => true end.

Record Urgency := mkUrgency { ug_level : string; ug_score : Z }.

Definition calculateUrgency (triggers : list TriggerType) (mentalBattery emotionalVolatility : Q)
  : Urgency :=
  match triggers with
  | [] => mkUrgency "none"%string 0
  | _ =>
    let s := (Z.of_nat (length triggers) * 20)%Z in
    let s := if Qlt_bool mentalBattery 30 then (s + 30)%Z
             else if Qlt_bool mentalBattery 40 then (s + 15)%Z else s in
    let s := if Qlt_bool 80 emotionalVolatility then (s + 25)%Z
             else if Qlt_bool 70 emotionalVolatility then (s + 10)%Z else s in
    let s := if Nat.leb 2 (length (filter is_severe triggers)) then (s + 20)%Z else s in
    let level := if (70 <=? s)%Z then "high"%string else if (40 <=? s)%Z then "medium"%string else "low"%string in
    mkUrgency level (Z.min 100 s)
  end.

Definition getRecommendedBreathwork (triggers : list TriggerType) : string :=
  let has t := existsb (fun x => match x, t with
                                 | high_volatility, high_volatility | low_battery, low_battery
                                 | impulsive_trades, impulsive_trades
                                 | battery_drop, battery_drop => true
                                 | _, _ => false end) triggers in
  if has high_volatility || has impulsive_trades then "Box Breathing"%string
  else if has low_battery then "Energizing Breath"%string
  else "Calming Breath"%string.

Record Breathwork := mkBreathwork {
  bw_shouldSuggest : bool;
  bw_urgency : Urgency;
  bw_triggers : list TriggerType;
  bw_breathworkType : option string
}.

Definition shouldSuggestBreathwork (now : Z) (mentalBattery emotionalVolatility : Q)
  (todayTrades : list Trade) (sessionStartBattery : Q) : Breathwork :=
  let t1 := if Qlt_bool 70 emotionalVolatility then [high_volatility] else [] in
  let t2 := if Qlt_bool mentalBattery 40 then [low_battery] else [] in
  let impulsiveCount := countImpulsiveTradesLastHour now todayTrades in
  let t3 := if Nat.leb 3 impulsiveCount then [impulsive_trades] else [] in
  let batteryDrop := calculateBatteryDrop sessionStartBattery mentalBattery in
  let t4 := if Qlt_bool 30 batteryDrop then [battery_drop] else [] in
  let triggers := t1 ++ t2 ++ t3 ++ t4 in
  let shouldSuggest := negb (Nat.eqb (length triggers) 0) in
  mkBreathwork shouldSuggest (calculateUrgency triggers mentalBattery emotionalVolatility)
    triggers (if shouldSuggest then Some (getRecommendedBreathwork triggers) else None).

(** The default of [sessionStartBattery], also what [getBreathworkSuggestion]
    passes. *)
Definition default_sessionStartBattery : Q := 100.

(* ------------------------------------------------------------------ *)
(** ** Plan control (zentra/planControl.js) *)

(** [plan?.riskPercentPerTrade || 1] and friends; [None] is a missing plan. *)
Definition planRisk_or1 (plan : option TradingPlan) : Q :=
  match plan with Some p => or_default (riskPercentPerTrade p) 1 | None => 1 end.

Definition targetRR_or1 (plan : option TradingPlan) : Q :=
  match plan with Some p => or_default (targetRiskRewardRatio p) 1 | None => 1 end.

Definition prefSessions (plan : option TradingPlan) : list TradingSession :=
  match plan with Some p => preferredSessions p | None => [] end.

Definition isInAllowedSession (t : Trade) (pref : list TradingSession) : bool :=
  match pref with [] => true | _ => includes pref (session t) end.

Definition hasProperSlTp (t : Trade) (targetRR : Q) : bool :=
  (negb (stopLossHit t) && Qle_bool 80 (num_of (targetPercentAchieved t)))
  || (truthy (riskRewardAchieved t) && Qle_bool targetRR (num_of (riskRewardAchieved t))).

Definition hasCorrectPositionSize (t : Trade) (planRisk : Q) : bool :=
  if negb (truthy (riskPercentUsed t)) || Qeq_bool planRisk 0 then false
  else Qle_bool (planRisk * (9 # 10)) (num_of (riskPercentUsed t))
       && Qle_bool (num_of (riskPercentUsed t)) (planRisk * (11 # 10)).

(** [trade.notes && trade.notes.trim().length > 0] *)
Definition is_js_space (c : Ascii.ascii) : bool :=
  let n := Ascii.nat_of_ascii c in (Nat.leb 9 n && Nat.leb n 13) || Nat.eqb n 32.

Fixpoint has_non_space (s : string) : bool :=
  match s with
  | EmptyString => false
  | String c s' => negb (is_js_space c) || has_non_space s'
  end.

Definition hasNotes (t : Trade) : bool := has_non_space (notes t).

Definition hasTimingDiscipline (t : Trade) (prev : option Trade) : bool :=
  match prev with
  | None => true
  | Some pt => (1800000 <=? entryTime t - exitTime pt)%Z
  end.

Definition calculateTradeScore (t : Trade) (plan : option TradingPlan) (prev : option Trade) : Z :=
  let planRisk := planRisk_or1 plan in
  let targetRR := targetRR_or1 plan in
  let pref := prefSessions plan in
  ((if isInAllowedSession t pref then 20 else 0)
   + (if hasProperSlTp t targetRR then 30 else 0)
   + (if hasCorrectPositionSize t planRisk then 25 else 0)
   + (if hasNotes t then 10 else 0)
   + (if hasTimingDiscipline t prev then 15 else 0))%Z.

(** [sortedTrades.forEach((trade, index) => ... previousTrade ...)]: the
    scores of a sorted list, each trade with its predecessor. *)
Fixpoint scores_with_prev (plan : option TradingPlan) (prev : option Trade) (l : list Trade)
  : list Z :=
  match l with
  | [] => []
  | t :: l' => calculateTradeScore t plan prev :: scores_with_prev plan (Some t) l'
  end.

Definition calculatePlanControl (trades : list Trade) (plan : option TradingPlan) : Z :=
  match trades with
  | [] => 0%Z
  | _ =>
    let recentTrades := firstn 5 trades in
    let sortedTrades := sort_by by_entry recentTrades in
    let totalScore := fold_left Z.add (scores_with_prev plan None sortedTrades) 0%Z in
    js_round (qz totalScore / qlen sortedTrades)
  end.

(* ------------------------------------------------------------------ *)
(** ** Psychological radar (zentra/psychologicalRadar.js) *)

(** [Math.sqrt], to 64 binary places (below a double's resolution). *)
Definition qsqrt (x : Q) : Q :=
  inject_Z (Z.sqrt (Qfloor (x * inject_Z (2 ^ 128)))) / inject_Z (2 ^ 64).

(** Values of the truthy entries: [trades.filter((t) => t.riskPercentUsed).map(...)]. *)
Definition truthy_vals (f : Trade -> option Q) (trades : list Trade) : list Q :=
  flat_map (fun t => match f t with
                     | Some x => if Qeq_bool x 0 then [] else [x]
                     | None => [] end) trades.

(** [t.riskPercentUsed && t.riskPercentUsed > c] *)
Definition risk_above (c : Q) (t : Trade) : bool :=
  truthy (riskPercentUsed t) && Qlt_bool c (num_of (riskPercentUsed t)).

(** Consecutive pairs [(sorted[i-1], sorted[i])]. *)
Definition pairs {A} (l : list A) : list (A * A) := combine l (tl l).

Definition calculateDiscipline (trades : list Trade) (plan : option TradingPlan)
  (planControlPercent : Z) : Z :=
  let planRisk := planRisk_or1 plan in
  let pref := prefSessions plan in
  let hasRiskBreach := existsb (risk_above (planRisk * (13 # 10))) trades in
  let hasSessionViolation :=
    negb (Nat.eqb (length pref) 0)
    && existsb (fun t => negb (includes pref (session t))) trades in
  let score := (planControlPercent + (if hasRiskBreach then 0 else 10)
                + (if hasSessionViolation then 0 else 5))%Z in
  Z.min 100 score.

Definition calculateImpulseControl (trades : list Trade) : Z :=
  if Nat.ltb (length trades) 2 then 100%Z
  else
    let impulsiveCount := impulsive_pairs (sort_by by_entry trades) in
    let raw := qn impulsiveCount / 5 * 100 in
    Z.max 0 (js_round (100 - raw)).

Definition calculateAggression (trades : list Trade) (plan : option TradingPlan) : Z :=
  match trades with
  | [] => 0%Z
  | _ =>
    let planRisk := planRisk_or1 plan in
    let risksUsed := truthy_vals riskPercentUsed trades in
    let base := match risksUsed with
                | [] => 0
                | _ => qsum risksUsed / qlen risksUsed / planRisk * 50
                end in
    let base := if existsb (risk_above (planRisk * (3 # 2))) trades then base + 20 else base in
    let sortedTrades := sort_by by_entry trades in
    let hasRevengeTrade :=
      existsb (fun pc => Qlt_bool (profitLoss (fst pc)) 0
                         && risk_above (planRisk * (13 # 10)) (snd pc)) (pairs sortedTrades) in
    let base := if hasRevengeTrade then base + 15 else base in
    Z.min 100 (js_round base)
  end.

(** The aggression trait as the spec words it: the base is the mean of the
    non-null risks (every other part as in [calculateAggression]). *)
Definition aggression_over_nonnull (trades : list Trade) (plan : option TradingPlan) : Z :=
  match trades with
  | [] => 0%Z
  | _ =>
    let planRisk := planRisk_or1 plan in
    let risksUsed := nonnull riskPercentUsed trades in
    let base := match risksUsed with
                | [] => 0
                | _ => qsum risksUsed / qlen risksUsed / planRisk * 50
                end in
    let base := if existsb (risk_above (planRisk * (3 # 2))) trades then base + 20 else base in
    let hasRevengeTrade :=
      existsb (fun pc => Qlt_bool (profitLoss (fst pc)) 0
                         && risk_above (planRisk * (13 # 10)) (snd pc))
        (pairs (sort_by by_entry trades)) in
    let base := if hasRevengeTrade then base + 15 else base in
    Z.min 100 (js_round base)
  end.

Definition calculateHesitation (trades : list Trade) : Z :=
  match trades with
  | [] => 0%Z
  | _ =>
    let hesitationCount := length (filter exitedEarly trades) in
    let base := qn hesitationCount / 5 * 100 in
    let hasLowTargetWins :=
      existsb (fun t => Qlt_bool 0 (profitLoss t) && truthy (targetPercentAchieved t)
                        && Qlt_bool (num_of (targetPercentAchieved t)) 60) trades in
    let base := if hasLowTargetWins then base + 20 else base in
    let hasLongGap :=
      existsb (fun pc => (4 * 3600000 <? entryTime (snd pc) - exitTime (fst pc))%Z)
        (pairs (sort_by by_entry trades)) in
    let base := if hasLongGap then base + 15 else base in
    Z.min 100 (js_round base)
  end.

Definition calculateConsistency (trades : list Trade) (plan : option TradingPlan) : Z :=
  match trades with
  | [] => 100%Z
  | _ =>
    let pref := prefSessions plan in
    let risksUsed := truthy_vals riskPercentUsed trades in
    let variability :=
      if Nat.ltb 1 (length risksUsed) then
        let avgRisk := qsum risksUsed / qlen risksUsed in
        let variance := qsum (map (fun v => (v - avgRisk) * (v - avgRisk)) risksUsed)
                        / qlen risksUsed in
        let stdDev := qsqrt variance in
        if Qlt_bool 0 avgRisk then stdDev / avgRisk * 100 else 0
      else 0 in
    let score := 100 - variability in
    let allInPreferred :=
      Nat.eqb (length pref) 0 || forallb (fun t => includes pref (session t)) trades in
    let score := if allInPreferred then score + 10 else score in
    let stableTiming :=
      forallb (fun pc => let d := (entryTime (snd pc) - exitTime (fst pc))%Z in
                         negb ((d <? 1800000)%Z || (6 * 3600000 <? d)%Z))
        (pairs (sort_by by_entry trades)) in
    let score := if stableTiming && Nat.ltb 1 (length trades) then score + 5 else score in
    Z.max 0 (Z.min 100 (js_round score))
  end.

Definition calculateEmotionalVolatility (aggressionScore hesitationScore : Z) : Z :=
  let v := qz (Z.abs (aggressionScore - hesitationScore)) / 2 in
  let v := if (60 <? aggressionScore)%Z && (60 <? hesitationScore)%Z then v + 20 else v in
  Z.min 100 (js_round v).

Record Radar := mkRadar {
  discipline : Z;
  impulseControl : Z;
  aggression : Z;
  hesitation : Z;
  consistency : Z;
  emotionalVolatility : Z
}.

Definition calculatePsychologicalRadar (trades : list Trade) (plan : option TradingPlan) : Radar :=
  match trades with
  | [] => mkRadar 0 100 0 0 100 0
  | _ =>
    let recentTrades := firstn 5 trades in
    let planControlPercent := calculatePlanControl recentTrades plan in
    let a := calculateAggression recentTrades plan in
    let h := calculateHesitation recentTrades in
    mkRadar (calculateDiscipline recentTrades plan planControlPercent)
      (calculateImpulseControl recentTrades) a h
      (calculateConsistency recentTrades plan) (calculateEmotionalVolatility a h)
  end.

Definition radar_traits (r : Radar) : list Z :=
  [discipline r; impulseControl r; aggression r; hesitation r; consistency r;
   emotionalVolatility r].

(* ------------------------------------------------------------------ *)
(** ** Mental battery (zentra/planControl.js, [calculateMentalBattery]) *)

Definition isOversizedTrade (t : Trade) (planRisk : Q) : bool :=
  if negb (truthy (riskPercentUsed t)) || Qeq_bool planRisk 0 then false
  else Qlt_bool (planRisk * (13 # 10)) (num_of (riskPercentUsed t)).

Definition isLargeLoss (t : Trade) (planRisk : Q) : bool :=
  if Qeq_bool planRisk 0 then false else Qlt_bool (profitLoss t) (-2 * planRisk).

(** Inner loop of [detectClusters]: trades after [start] within two hours,
    stopping at the first one further away. *)
Fixpoint count_within (start : Z) (l : list Trade) : nat :=
  match l with
  | [] => 0
  | t :: l' => if (entryTime t - start <=? 7200000)%Z then S (count_within start l') else 0
  end.

(** Outer loop of [detectClusters] over [i < length - 2], stopping at two
    clusters. *)
Fixpoint clusters_from (fuel : nat) (clusters : nat) (l : list Trade) : nat :=
  match fuel, l with
  | O, _ | _, [] => clusters
  | S f, t :: l' =>
    let tradesInWindow := S (count_within (entryTime t) l') in
    if Nat.leb 3 tradesInWindow then
      if Nat.leb 2 (S clusters) then S clusters else clusters_from f (S clusters) l'
    else clusters_from f clusters l'
  end.

Definition detectClusters (trades : list Trade) : nat :=
  if Nat.ltb (length trades) 3 then 0
  else clusters_from (length trades - 2) 0 (sort_by by_entry trades).

Fixpoint pauses_from (pauses : nat) (ps : list (Trade * Trade)) : nat :=
  match ps with
  | [] => pauses
  | (prev, curr) :: ps' =>
    if (7200000 <=? entryTime curr - exitTime prev)%Z then
      if Nat.leb 3 (S pauses) then S pauses else pauses_from (S pauses) ps'
    else pauses_from pauses ps'
  end.

Definition detectDisciplinedPauses (trades : list Trade) : nat :=
  if Nat.ltb (length trades) 2 then 0 else pauses_from 0 (pairs (sort_by by_entry trades)).

Definition hasStableRiskUsage (trades : list Trade) (planRisk : Q) : bool :=
  match trades with
  | [] => false
  | _ =>
    if Qeq_bool planRisk 0 then false
    else forallb (fun t => truthy (riskPercentUsed t)
                           && Qle_bool (planRisk * (9 # 10)) (num_of (riskPercentUsed t))
                           && Qle_bool (num_of (riskPercentUsed t)) (planRisk * (11 # 10))) trades
  end.

Definition hasEmotionalVolatility (trades : list Trade) : bool :=
  if Nat.ltb (length trades) 2 then false
  else
    let sorted := sort_by by_entry trades in
    let hasHesitation :=
      existsb (fun t => exitedEarly t || (truthy (targetPercentAchieved t)
                                          && Qlt_bool (num_of (targetPercentAchieved t)) 60)) sorted in
    let hasImpulsive := Nat.ltb 0 (impulsive_pairs sorted) in
    hasImpulsive && hasHesitation.

Definition calculateMentalBattery (todayTrades : list Trade) (plan : option TradingPlan)
  (planControlPercent : Z) : Z :=
  match todayTrades with
  | [] => 100%Z
  | _ =>
    let planRisk := planRisk_or1 plan in
    let sorted := sort_by by_entry todayTrades in
    let b := 100%Z in
    let b := (b - 15 * Z.of_nat (impulsive_pairs sorted))%Z in
    let b := (b - 10 * Z.of_nat (length (filter (fun t => isOversizedTrade t planRisk) sorted)))%Z in
    let b := (b - 8 * Z.of_nat (detectClusters sorted))%Z in
    let b := (b - 20 * Z.of_nat (length (filter (fun t => isLargeLoss t planRisk) sorted)))%Z in
    let b := if hasEmotionalVolatility sorted then (b - 12)%Z else b in
    let pauseCount := detectDisciplinedPauses sorted in
    let b := if Nat.ltb 0 pauseCount then (b + Z.min (Z.of_nat pauseCount * 5) 15)%Z else b in
    let b := if (80 <=? planControlPercent)%Z then (b + 8)%Z else b in
    let b := if hasStableRiskUsage sorted planRisk then (b + 5)%Z else b in
    Z.max 0 (Z.min 100 b)
  end.

(* ------------------------------------------------------------------ *)
(** ** Behaviour heatmap (zentra/psychologicalRadar.js, third module) *)

Record TimeWindow := mkWindow { tw_id : string; tw_startHour : Z; tw_endHour : Z }.

Definition TIME_WINDOWS : list TimeWindow :=
  [ mkWindow "00-03" 0 3; mkWindow "03-06" 3 6; mkWindow "06-09" 6 9;
    mkWindow "09-12" 9 12; mkWindow "12-15" 12 15; mkWindow "15-18" 15 18;
    mkWindow "18-21" 18 21; mkWindow "21-24" 21 24 ].

(** [new Date(ms).getHours()] in a host time zone at a fixed offset
    [tzOffset] (milliseconds). *)
Definition localHour (tzOffset ms : Z) : Z := (((ms + tzOffset) mod 86400000) / 3600000)%Z.

Definition getTimeWindow (tzOffset : Z) (t : Trade) : option TimeWindow :=
  let h := localHour tzOffset (entryTime t) in
  find (fun w => (tw_startHour w <=? h)%Z && (h <? tw_endHour w)%Z) TIME_WINDOWS.

Definition calculateWinLossExpectancy (trades : list Trade) : Q :=
  match trades with
  | [] => 50
  | _ =>
    let wins := length (filter (fun t => Qlt_bool 0 (profitLoss t)) trades) in
    let losses := length (filter (fun t => Qlt_bool (profitLoss t) 0) trades) in
    let e := (qn wins - qn losses) / qlen trades * 50 + 50 in
    Qmax 0 (Qmin 100 e)
  end.

Definition calculateWindowPlanCompliance (trades : list Trade) (plan : option TradingPlan) : Z :=
  match trades with
  | [] => 50%Z
  | _ =>
    let totalScore := fold_left Z.add (scores_with_prev plan None (sort_by by_entry trades)) 0%Z in
    js_round (qz totalScore / qlen trades)
  end.

Definition calculateImpulsivenessPenalty (trades : list Trade) : Z :=
  if Nat.ltb (length trades) 2 then 0%Z
  else Z.min (Z.of_nat (impulsive_pairs (sort_by by_entry trades)) * 15) 100.

Definition calculateHesitationPenalty (trades : list Trade) : Z :=
  let c := length (filter (fun t => exitedEarly t
                 || (truthy (targetPercentAchieved t) && Qlt_bool (num_of (targetPercentAchieved t)) 60
                     && Qlt_bool 0 (profitLoss t))) trades) in
  Z.min (Z.of_nat c * 10) 100.

Definition calculateRiskDeviationPenalty (trades : list Trade) (planRisk : Q) : Z :=
  match trades with
  | [] => 0%Z
  | _ =>
    if Qeq_bool planRisk 0 then 0%Z
    else
      let risksUsed := truthy_vals riskPercentUsed trades in
      match risksUsed with
      | [] => 0%Z
      | _ =>
        let mean := qsum risksUsed / qlen risksUsed in
        let variance := qsum (map (fun v => (v - mean) * (v - mean)) risksUsed) / qlen risksUsed in
        js_round (Qmin (qsqrt variance / planRisk * 50) 100)
      end
  end.

Definition calculateVolatilityPenalty (trades : list Trade) (planRisk : Q) : Z :=
  if Nat.ltb (length trades) 2 || Qeq_bool planRisk 0 then 0%Z
  else if existsb (risk_above (planRisk * (13 # 10))) trades
          && existsb (fun t => truthy (riskPercentUsed t)
                               && Qlt_bool (num_of (riskPercentUsed t)) (planRisk * (7 # 10))) trades
  then 20%Z else 0%Z.

Definition calculateFrequencyPenalty (trades : list Trade) : Z :=
  if Nat.leb (length trades) 3 then 0%Z else Z.min ((Z.of_nat (length trades) - 3) * 5) 25.

Definition calculateWindowScore (trades : list Trade) (plan : option TradingPlan) : Z :=
  let planRisk := planRisk_or1 plan in
  let score :=
    calculateWinLossExpectancy trades * (2 # 10)
    + qz (calculateWindowPlanCompliance trades plan) * (3 # 10)
    + qz (100 - calculateImpulsivenessPenalty trades) * (15 # 100)
    + qz (100 - calculateHesitationPenalty trades) * (15 # 100)
    + qz (100 - calculateRiskDeviationPenalty trades planRisk) * (1 # 10)
    + qz (100 - calculateVolatilityPenalty trades planRisk) * (5 # 100)
    + qz (100 - calculateFrequencyPenalty trades) * (5 # 100) in
  js_round (Qmax 0 (Qmin 100 score)).

Definition window_eqb (a b : TimeWindow) : bool := String.eqb (tw_id a) (tw_id b).

(** The score of each of the eight windows; [None] is [score: null]. *)
Definition calculateBehaviorHeatmap (tzOffset : Z) (trades : list Trade) (plan : option TradingPlan)
  : list (TimeWindow * option Z) :=
  map (fun w =>
         let windowTrades :=
           filter (fun t => match getTimeWindow tzOffset t with
                            | Some tw => window_eqb tw w
                            | None => false end) trades in
         match windowTrades with
         | [] => (w, None)
         | _ => (w, Some (calculateWindowScore windowTrades plan))
         end) TIME_WINDOWS.

(* ------------------------------------------------------------------ *)
(** ** The stable sort of the code modelled below

    The same insertion sort as [sort_by]: elements with equal keys keep
    their input order, as in [Array.prototype.sort]. *)

Fixpoint insert_stable {A} (key : A -> Z) (x : A) (l : list A) : list A :=
  match l with
  | [] => [x]
  | y :: l' => if (key y <? key x)%Z then y :: insert_stable key x l' else x :: l
  end.

Fixpoint sort_stable {A} (key : A -> Z) (l : list A) : list A :=
  match l with
  | [] => []
  | x :: l' => insert_stable key x (sort_stable key l')
  end.

(* ------------------------------------------------------------------ *)
(** ** Heatmap windows and insight (zentra/psychologicalRadar.js, third module) *)

Definition getColorStatus (score : Z) : string :=
  if (70 <=? score)%Z then "green"%string
  else if (40 <=? score)%Z then "yellow"%string
  else "red"%string.

(** [trades.filter((trade) => { const tw = getTimeWindow(trade); return tw && tw.id === window.id; })] *)
Definition windowTrades (tzOffset : Z) (trades : list Trade) (w : TimeWindow) : list Trade :=
  filter (fun t => match getTimeWindow tzOffset t with
                   | Some tw => window_eqb tw w
                   | None => false end) trades.

(** A window object of [calculateBehaviorHeatmap] (its [metrics] and
    [message] are left out). *)
Record HeatmapWindow := mkHeatmapWindow {
  hw_window : TimeWindow;
  hw_score : option Z;
  hw_color : string;
  hw_tradeCount : nat
}.

Record Heatmap := mkHeatmap {
  hm_windows : list HeatmapWindow;
  hm_totalTrades : nat
}.

(** [calculateBehaviorHeatmap] with the colour and trade count of each
    window and [totalTrades]. *)
Definition calculateBehaviorHeatmap_windows (tzOffset : Z) (trades : list Trade)
  (plan : option TradingPlan) : Heatmap :=
  mkHeatmap
    (map (fun w =>
            match windowTrades tzOffset trades w with
            | [] => mkHeatmapWindow w None "grey"%string 0
            | wt => let score := calculateWindowScore wt plan in
                    mkHeatmapWindow w (Some score) (getColorStatus score) (length wt)
            end) TIME_WINDOWS)
    (length trades).

(** The branch of [deriveHeatmapInsight] that sets the message. *)
Inductive HeatmapInsightCase :=
  insufficient_data | peak_activity_low_discipline | best_with_fewer_trades
| red_windows | mostly_green | behavior_gap | mixed_patterns.

Record HeatmapInsight := mkHeatmapInsight {
  hi_type : string;
  hi_case : HeatmapInsightCase
}.

(** [w.score] of an active window (never [null] there). *)
Definition hw_scoreZ (w : HeatmapWindow) : Z :=
  match hw_score w with Some s => s | None => 0%Z end.

Definition deriveHeatmapInsight (windows : list HeatmapWindow) : HeatmapInsight :=
  let activeWindows :=
    filter (fun w => is_some (hw_score w) && Nat.ltb 0 (hw_tradeCount w)) windows in
  match activeWindows with
  | [] => mkHeatmapInsight "neutral"%string insufficient_data
  | a :: _ =>
    (* [(a, b) => b.score - a.score]: descending, ties in input order *)
    let sortedByScore := sort_stable (fun w => (- hw_scoreZ w)%Z) activeWindows in
    let bestWindow := hd a sortedByScore in
    let worstWindow := last sortedByScore a in
    let sortedByActivity :=
      sort_stable (fun w => (- Z.of_nat (hw_tradeCount w))%Z) activeWindows in
    let highestActivityWindow := hd a sortedByActivity in
    let highActivityBadBehavior :=
      length (filter (fun w => Nat.leb 3 (hw_tradeCount w) && (hw_scoreZ w <? 50)%Z)
                activeWindows) in
    let lowActivityGoodBehavior :=
      length (filter (fun w => Nat.leb (hw_tradeCount w) 2 && (70 <=? hw_scoreZ w)%Z)
                activeWindows) in
    let redWindows := filter (fun w => String.eqb (hw_color w) "red") activeWindows in
    let greenWindows := filter (fun w => String.eqb (hw_color w) "green") activeWindows in
    if Nat.ltb 0 highActivityBadBehavior && (hw_scoreZ highestActivityWindow <? 50)%Z then
      mkHeatmapInsight "warning"%string peak_activity_low_discipline
    else if Nat.ltb 0 lowActivityGoodBehavior && Nat.leb (hw_tradeCount bestWindow) 2 then
      mkHeatmapInsight "positive"%string best_with_fewer_trades
    else if Nat.leb 2 (length redWindows) then
      mkHeatmapInsight "warning"%string red_windows
    (* [greenWindows.length >= activeWindows.length / 2] *)
    else if Nat.leb (length activeWindows) (2 * length greenWindows) then
      mkHeatmapInsight "positive"%string mostly_green
    else if (hw_scoreZ worstWindow <? 40)%Z && (70 <? hw_scoreZ bestWindow)%Z then
      mkHeatmapInsight "warning"%string behavior_gap
    else mkHeatmapInsight "neutral"%string mixed_patterns
  end.

(** [calculateBehaviorHeatmapWithInsight] *)
Definition calculateBehaviorHeatmapWithInsight (tzOffset : Z) (trades : list Trade)
  (plan : option TradingPlan) : Heatmap * HeatmapInsight :=
  let baseResult := calculateBehaviorHeatmap_windows tzOffset trades plan in
  (baseResult, deriveHeatmapInsight (hm_windows baseResult)).

(* ------------------------------------------------------------------ *)
(** ** Daily quote (zentra/psychologicalRadar.js, second module) *)

(** [x | 0]: the signed 32-bit integer of [x]. *)
Definition toInt32 (x : Z) : Z := ((x + 2 ^ 31) mod 2 ^ 32 - 2 ^ 31)%Z.

(** The loop of [simpleHash] over the character codes; [hash] is always a
    32-bit integer, so [hash << 5] is [ToInt32(hash * 32)]. *)
Fixpoint simpleHash_loop (hash : Z) (codes : list Z) : Z :=
  match codes with
  | [] => hash
  | char :: codes' =>
    let hash := (toInt32 (Z.shiftl hash 5) - hash + char)%Z in
    simpleHash_loop (toInt32 hash) codes'
  end.

Definition simpleHash (codes : list Z) : Z := Z.abs (simpleHash_loop 0 codes).

(** The step [31 * hash + char] that [(hash << 5) - hash + char] computes
    before the reduction to 32 bits. *)
Definition hash_step (h c : Z) : Z := (31 * h + c)%Z.

(** [str.charCodeAt(i)] for a string of one-byte characters (a user id is
    hexadecimal and the date is [YYYY-MM-DD]). *)
Definition char_codes (s : string) : list Z :=
  map (fun c => Z.of_nat (Ascii.nat_of_ascii c)) (list_ascii_of_string s).

Record Quote := mkQuote {
  quote_id : Z;
  quote_text : string;
  quote_author : string;
  quote_category : string
}.

Record DailyQuote := mkDailyQuote {
  dq_id : Z;
  dq_text : string;
  dq_author : string;
  dq_category : string;
  dq_date : string
}.

(** [getDailyQuote(userId)]; [QUOTES] is the content of data/quotes.json
    (not part of the sources, so a parameter here) and [today] is
    [new Date().toISOString().split('T')[0]].  [hash] is nonnegative, so
    [hash % QUOTES.length] is [Z.modulo].  [None] is the [TypeError]
    of [quote.id] when [QUOTES[index]] is [undefined] ([hash % 0] is
    [NaN]). *)
Definition getDailyQuote (QUOTES : list Quote) (userId today : string) : option DailyQuote :=
  let seed := (userId ++ "-" ++ today)%string in
  let hash := simpleHash (char_codes seed) in
  match QUOTES with
  | [] => None
  | _ =>
    let index := (hash mod Z.of_nat (length QUOTES))%Z in
    match nth_error QUOTES (Z.to_nat index) with
    | Some quote => Some (mkDailyQuote (quote_id quote) (quote_text quote)
                           (quote_author quote) (quote_category quote) today)
    | None => None
    end
  end.

(* ------------------------------------------------------------------ *)
(** ** Consistency trend (zentra/consistencyTrend.js) *)

(** [grouped[dayKey].push(trade)], the days in insertion order. *)
Fixpoint group_push (k : Z) (t : Trade) (g : list (Z * list Trade)) : list (Z * list Trade) :=
  match g with
  | [] => [(k, [t])]
  | (k', ts) :: g' =>
    if (k' =? k)%Z then (k', ts ++ [t]) :: g' else (k', ts) :: group_push k t g'
  end.

Definition groupTradesByDay (trades : list Trade) : list (Z * list Trade) :=
  fold_left (fun g t => group_push (dayKey (entryTime t)) t g) trades [].

(** [groupedTrades[day]] *)
Definition group_lookup (day : Z) (g : list (Z * list Trade)) : list Trade :=
  match find (fun kv => (fst kv =? day)%Z) g with Some kv => snd kv | None => [] end.

Definition calculateRiskConsistency (trades : list Trade) (planRisk : Q) : Q :=
  if Nat.eqb (length trades) 0 || Qeq_bool planRisk 0 then 100
  else
    let risksUsed := truthy_vals riskPercentUsed trades in
    match risksUsed with
    | [] => 100
    | _ =>
      let avgRisk := qsum risksUsed / qlen risksUsed in
      let variance := qsum (map (fun v => (v - avgRisk) * (v - avgRisk)) risksUsed)
                      / qlen risksUsed in
      let stdDev := qsqrt variance in
      let variability := if Qlt_bool 0 avgRisk then stdDev / avgRisk * 100 else 0 in
      Qmax 0 (Qmin 100 (100 - variability))
    end.

(** Iteration [i > 0] of the loop of [calculateEmotionalTradeFrequency]:
    an impulsive re-entry, or else a loss followed by an oversized trade. *)
Definition emotional_pair (planRisk : Q) (pc : Trade * Trade) : bool :=
  let diff := (entryTime (snd pc) - exitTime (fst pc))%Z in
  let isImpulsive := (diff <? 1800000)%Z && (0 <=? diff)%Z in
  isImpulsive
  || (Qlt_bool (profitLoss (fst pc)) 0 && risk_above (planRisk * (13 # 10)) (snd pc)).

Definition calculateEmotionalTradeFrequency (trades : list Trade) (planRisk : Q) : Q :=
  match trades with
  | [] => 0
  | _ =>
    let sortedTrades := sort_stable by_entry trades in
    let emotionalCount := length (filter (emotional_pair planRisk) (pairs sortedTrades)) in
    qn emotionalCount / qlen trades * 100
  end.

Definition calculateBatteryStability (trades : list Trade) (planRisk : Q) : Q :=
  match trades with
  | [] => 100
  | _ =>
    let sortedTrades := sort_stable by_entry trades in
    let drainEvents :=
      (impulsive_pairs sortedTrades
       + length (filter (risk_above (planRisk * (13 # 10))) sortedTrades)
       + length (filter (fun t => Qlt_bool (profitLoss t) (-2 * planRisk)) sortedTrades))%nat in
    let maxDrainEvents := qlen trades * 2 in
    let stability := 100 - qn drainEvents / maxDrainEvents * 100 in
    Qmax 0 (Qmin 100 stability)
  end.

Record DailyMetrics := mkDailyMetrics {
  cm_avgPlanCompliance : Z;
  cm_behavioralVolatility : Z;
  cm_riskConsistency : Z;
  cm_emotionalTradeFrequency : Z;
  cm_batteryStability : Z
}.

Record DailyScore := mkDailyScore {
  ds_score : Z;
  ds_metrics : DailyMetrics;
  ds_tradeCount : nat
}.

(** [calculateDailyScore]; [None] is [null]. *)
Definition calculateDailyScore (trades : list Trade) (plan : option TradingPlan)
  : option DailyScore :=
  match trades with
  | [] => None
  | _ =>
    let planRisk := planRisk_or1 plan in
    let avgPlanCompliance := calculatePlanControl trades plan in
    let behavioralVolatility := emotionalVolatility (calculatePsychologicalRadar trades plan) in
    let riskConsistency := calculateRiskConsistency trades planRisk in
    let emotionalTradeFrequency := calculateEmotionalTradeFrequency trades planRisk in
    let batteryStability := calculateBatteryStability trades planRisk in
    let score := qz avgPlanCompliance * (35 # 100)
                 + qz (100 - behavioralVolatility) * (25 # 100)
                 + riskConsistency * (2 # 10)
                 + (100 - emotionalTradeFrequency) * (15 # 100)
                 + batteryStability * (5 # 100) in
    Some (mkDailyScore (js_round (Qmax 0 (Qmin 100 score)))
            (mkDailyMetrics (js_round (qz avgPlanCompliance)) (js_round (qz behavioralVolatility))
               (js_round riskConsistency) (js_round emotionalTradeFrequency)
               (js_round batteryStability))
            (length trades))
  end.

(** The [daysOption] of the query ([Joi.string().valid('7', '10', '20', 'all')]). *)
Inductive DaysOption := days_count (n : Z) | days_all.

Record TrendPoint := mkTrendPoint {
  tp_date : Z;
  tp_score : Z;
  tp_metrics : DailyMetrics;
  tp_tradeCount : nat
}.

Record TrendSummary := mkTrendSummary {
  ts_averageScore : Z;
  ts_trendDirection : string;
  ts_daysWithData : nat;
  ts_totalDays : Z;
  ts_message : option string
}.

Record TrendResult := mkTrendResult {
  ct_trend : list TrendPoint;
  ct_summary : TrendSummary
}.

Definition getTrendMessage (direction : string) (avgScore : Z) : string :=
  if String.eqb direction "improving" then "Your psychological consistency is improving"%string
  else if String.eqb direction "deteriorating" then
    "Your psychological consistency is declining - review recent behavior"%string
  else if (70 <=? avgScore)%Z then "Stable and disciplined trading pattern"%string
  else "Consistency is stable but has room for improvement"%string.

(** [scores.reduce((a, b) => a + b, 0) / scores.length] *)
Definition mean_z (scores : list Z) : Q := qz (fold_left Z.add scores 0%Z) / qlen scores.

(** [startDate]: the earliest entry (or [now]) for ['all']; otherwise
    [now] moved back [n] days by [setDate] in a host time zone without
    daylight saving. *)
Definition trend_startDate (now : Z) (trades : list Trade) (daysOption : DaysOption) : Z :=
  match daysOption with
  | days_all => fold_left (fun m t => if (entryTime t <? m)%Z then entryTime t else m) trades now
  | days_count n => (now - n * 86400000)%Z
  end.

Definition calculateConsistencyTrend (now : Z) (trades : list Trade) (plan : option TradingPlan)
  (daysOption : DaysOption) : TrendResult :=
  match trades with
  | [] => mkTrendResult [] (mkTrendSummary 0 "stable" 0 0 None)
  | _ =>
    let startDate := trend_startDate now trades daysOption in
    let filteredTrades := filter (fun t => (startDate <=? entryTime t)%Z) trades in
    let groupedTrades := groupTradesByDay filteredTrades in
    (* [Object.keys(groupedTrades).sort()]: [YYYY-MM-DD] strings sort as the days *)
    let sortedDays := sort_stable (fun d => d) (map fst groupedTrades) in
    let trend :=
      flat_map (fun day =>
                  match calculateDailyScore (group_lookup day groupedTrades) plan with
                  | Some d => [mkTrendPoint day (ds_score d) (ds_metrics d) (ds_tradeCount d)]
                  | None => []
                  end) sortedDays in
    let scores := map tp_score trend in
    let averageScore := match scores with [] => 0%Z | _ => js_round (mean_z scores) end in
    let half := Nat.div (length scores) 2 in
    let trendDirection :=
      if Nat.leb 3 (length scores) then
        let firstAvg := mean_z (firstn half scores) in
        let secondAvg := mean_z (skipn half scores) in
        if Qlt_bool 5 (secondAvg - firstAvg) then "improving"%string
        else if Qlt_bool 5 (firstAvg - secondAvg) then "deteriorating"%string
        else "stable"%string
      else "stable"%string in
    mkTrendResult trend
      (mkTrendSummary averageScore trendDirection (length trend)
         (match daysOption with days_all => Z.of_nat (length trend) | days_count n => n end)
         (Some (getTrendMessage trendDirection averageScore)))
  end.

(* ------------------------------------------------------------------ *)
(** ** Successive points of the state history *)

(** The emission test of [analyzeStateHistory] between two points: the
    state changed or the confidence moved by more than 15. *)
Definition point_changed (p q : HistoryPoint) : bool :=
  negb (state_eqb (hp_state p) (hp_state q))
  || (15 <? Z.abs (hp_confidence p - hp_confidence q))%Z.

(** What the loop of [analyzeStateHistory] keeps: at most [limit] points,
    successive points (oldest first) that pass the emission test, every
    confidence in [[10, 95]], and the newest point recording [lastState]. *)
Definition history_inv (limit : Z) (acc : LoopState) : Prop :=
  (Z.of_nat (length (ls_points acc)) <= Z.max 0 limit)%Z
  /\ forallb (fun pq => point_changed (fst pq) (snd pq)) (pairs (rev (ls_points acc))) = true
  /\ Forall (fun q => 10 <= hp_confidence q <= 95)%Z (ls_points acc)
  /\ match ls_points acc, ls_last acc with
     | [], None => True
     | q :: _, Some l => hp_state q = sr_state l /\ hp_confidence q = sr_confidence l
     | _, _ => False
     end.

(* ------------------------------------------------------------------ *)
(** ** Input constraints of the validation schemas
    ([riskPercentUsed: Joi.number().min(0)]; [riskPercentPerTrade] of the
    trading-plan model has [min: 0]) *)

Definition risks_nonneg (trades : list Trade) : bool :=
  forallb (fun t => Qle_bool 0 (num_of (riskPercentUsed t))) trades.

Definition plan_risk_nonneg (plan : option TradingPlan) : bool :=
  match plan with Some p => Qle_bool 0 (riskPercentPerTrade p) | None => true end.

(* ================================================================== *)
(** * Concrete inputs *)

Definition DAY : Z := 86400000.
Definition HOUR : Z := 3600000.

(** A trade entered at [hour] on day [day], held for thirty minutes. *)
Definition trade_at (day hour : Z) (pl : Q) (risk rr tgt : option Q) (s : TradingSession)
  (early : bool) : Trade :=
  mkTrade (day * DAY + hour * HOUR)%Z (day * DAY + hour * HOUR + 1800000)%Z
          pl risk rr tgt s false early "".

(** The plan of the worked example. *)
Definition example_plan : TradingPlan := mkPlan 5 (3 # 2) 2 [LONDON; NY].

(** Ten trades, most recent first: six wins, risks 2.6, 2.6 and eight of
    1.6 (average 1.8, two above 1.5 * 1.5), R:R 1.4, six trades at 80% of
    target, six days with trades, two of them with an ASIA trade. *)
Definition example_trades : list Trade :=
  [ trade_at 6 15 1 (Some (26 # 10)) (Some (14 # 10)) (Some 80) NY false;
    trade_at 6 10 1 (Some (26 # 10)) (Some (14 # 10)) (Some 80) LONDON false;
    trade_at 5 15 1 (Some (16 # 10)) (Some (14 # 10)) (Some 80) ASIA false;
    trade_at 5 10 1 (Some (16 # 10)) (Some (14 # 10)) (Some 80) LONDON false;
    trade_at 4 15 1 (Some (16 # 10)) (Some (14 # 10)) (Some 80) NY false;
    trade_at 4 10 1 (Some (16 # 10)) (Some (14 # 10)) (Some 80) LONDON false;
    trade_at 3 15 (-1) (Some (16 # 10)) (Some (14 # 10)) (Some 50) ASIA false;
    trade_at 3 10 (-1) (Some (16 # 10)) (Some (14 # 10)) (Some 50) LONDON false;
    trade_at 2 10 (-1) (Some (16 # 10)) (Some (14 # 10)) (Some 50) NY false;
    trade_at 1 10 (-1) (Some (16 # 10)) (Some (14 # 10)) (Some 50) LONDON false ].

(** The metrics of the worked example, as the code computes them on the
    analysed window. *)
Definition example_features (trades : list Trade) (p : TradingPlan) : Prop :=
  let w := firstn 10 trades in
  let pr := or_default (riskPercentPerTrade p) 0 in
  let m := calculateBasicMetrics w in
  let d := calculateDayMetrics w p in
  length w = 10%nat
  /\ length (filter (fun t => Qlt_bool 0 (profitLoss t)) w) = 6%nat
  /\ bm_avgRiskUsed m == 18 # 10
  /\ bm_avgRR m == 14 # 10
  /\ calculateRiskBreaches w pr = 2%nat
  /\ option_map riskPercentUsed (hd_error w) = Some (Some (26 # 10))
  /\ avg_or (nonnull riskPercentUsed w) pr == 18 # 10
  /\ dm_exceededDays d = 0%nat
  /\ dm_outsideSessionDays d = 2%nat
  /\ dm_daysWithTrades d = 6%nat.

(** Two trades ten minutes apart, both entered within the hour before [now]. *)
Definition breath_now : Z := (10 * DAY + 12 * HOUR)%Z.

Definition breath_trades : list Trade :=
  [ mkTrade (breath_now - 50 * 60000) (breath_now - 40 * 60000) (-1) (Some 1) None None
      LONDON true false "";
    mkTrade (breath_now - 30 * 60000) (breath_now - 20 * 60000) (-1) (Some 1) None None
      LONDON true false "" ].

(** The plan and trades on which the rounded mean changes the volatility:
    listed most recent first. *)
Definition history_plan : TradingPlan := mkPlan 5 1 2 [LONDON].

Definition history_trades : list Trade :=
  [ trade_at 2 3 1 (Some (3 # 2)) None (Some 90) ASIA false;
    trade_at 2 2 1 (Some 2) None None LONDON false;
    trade_at 2 0 1 (Some (3 # 2)) None (Some 90) ASIA false;
    trade_at 1 4 1 (Some 1) None (Some 90) LONDON false;
    trade_at 0 1 1 None None (Some 50) LONDON true ].

(** Two trades listed most recent first, as the trade store returns them. *)
Definition two_trades : list Trade :=
  [ trade_at 1 10 1 (Some 1) None None LONDON false;
    trade_at 0 10 (-1) (Some 1) None None LONDON false ].

(** Two trades with risks 2.0 and 0.0 (both non-null) under a plan risk of 2. *)
Definition zero_risk_plan : TradingPlan := mkPlan 5 2 2 [LONDON].

Definition zero_risk_trades : list Trade :=
  [ trade_at 1 10 1 (Some 2) None None LONDON false;
    trade_at 0 10 1 (Some 0) None None LONDON false ].

(** The five risks of the spec's example. *)
Definition five_risk_trades : list Trade :=
  map (fun r => trade_at 0 10 1 r None None LONDON false)
    [Some 2; None; Some (3 # 2); None; Some (5 # 2)].

(** Heatmap windows with a red window of one trade, a green window of five
    and two yellow ones. *)
Definition gap_windows : list HeatmapWindow :=
  [ mkHeatmapWindow (mkWindow "00-03" 0 3) (Some 30%Z) "red" 1;
    mkHeatmapWindow (mkWindow "09-12" 9 12) (Some 80%Z) "green" 5;
    mkHeatmapWindow (mkWindow "12-15" 12 15) (Some 50%Z) "yellow" 1;
    mkHeatmapWindow (mkWindow "15-18" 15 18) (Some 55%Z) "yellow" 1 ].

(* ================================================================== *)
(** * Theorems *)

(** ** Session forecast *)

(** C10: for every trade list, session, plan and current state, the
    forecast's risk level is never LOW and its label is never POSITIVE. *)
Theorem forecast_never_low_or_positive :
  forall trades sess plan currentState,
    let f := analyzeSessionForecast trades sess plan currentState in
    fc_riskLevel f <> LOW /\ fc_forecast f <> "POSITIVE"%string.
Proof.
  intros trades sess plan cs f; subst f.
  destruct trades as [|t ts]; destruct plan as [p|]; cbn -[qlen];
    try (split; discriminate).
  repeat match goal with
         | |- context [if ?b then _ else _] => destruct b
         end; cbn; split; discriminate.
Qed.

(** ** State classifier *)

Lemma daysWithTrades_pos : forall trades p,
  (0 < dm_daysWithTrades (calculateDayMetrics trades p))%nat.
Proof.
  intros trades p. unfold calculateDayMetrics.
  destruct (day_tables trades p) as [byDay outside]; cbn.
  destruct (length byDay); lia.
Qed.

(** C2: when the analysed window satisfies both the OVEREXTENDED condition
    and the AGGRESSIVE condition, the classifier returns OVEREXTENDED. *)
Theorem classifier_overextended_beats_aggressive :
  forall trades p,
    trades <> [] ->
    let w := firstn 10 trades in
    let n := length w in
    let planRisk := or_default (riskPercentPerTrade p) 0 in
    let d := calculateDayMetrics w p in
    (33 # 100 <= qn (dm_exceededDays d) / qn (dm_daysWithTrades d)
     \/ 33 # 100 <= qn (dm_outsideSessionDays d) / qn (dm_daysWithTrades d)) ->
    (rs_riskSpike (calculateRiskSpike w planRisk) = true
     \/ 1 # 4 <= qn (calculateRiskBreaches w planRisk) / qn n
     \/ planRisk * (5 # 4) < bm_avgRiskUsed (calculateBasicMetrics w)) ->
    sr_state (analyzePsychologicalState trades (Some p)) = OVEREXTENDED.
Proof.
  intros trades p Hne w n planRisk d Hover _.
  destruct trades as [|t ts]; [congruence|].
  cbn [analyzePsychologicalState sr_state].
  unfold determineState.
  assert (Hc : overextended_cond (calculateDayMetrics (firstn 10 (t :: ts)) p) = true).
  { unfold overextended_cond.
    pose proof (daysWithTrades_pos (firstn 10 (t :: ts)) p) as Hpos.
    apply andb_true_intro; split; [apply Nat.ltb_lt; exact Hpos|].
    apply orb_true_iff.
    destruct Hover as [H|H]; [left|right]; apply Qle_bool_iff; exact H. }
  rewrite Hc. reflexivity.
Qed.

Lemma classifier_overextended_beats_aggressive_witness :
  example_trades <> []
  /\ sr_state (analyzePsychologicalState example_trades (Some example_plan)) = OVEREXTENDED.
Proof.
  split; [discriminate|].
  apply classifier_overextended_beats_aggressive; [discriminate| |].
  - right. vm_compute. discriminate.
  - left. vm_compute. reflexivity.
Defined.

(** C3, as stated, fails: with no trades the fallback reports confidence 50,
    above the cap of 40 for windows of fewer than five trades. *)
Lemma confidence_cap_fails_on_fallback :
  let r := analyzePsychologicalState [] (Some example_plan) in
  (sr_analyzedTradeCount r < 5)%nat /\ (sr_confidence r > 40)%Z.
Proof. vm_compute. split; [lia | reflexivity]. Qed.

(** C3 (amended): the confidence is always in [10, 95]; in the no-data
    fallback (no trades or no plan) it is 50; otherwise it is at most 40
    whenever the analysed window has fewer than five trades. *)
Theorem confidence_bounds :
  forall trades plan,
    let r := analyzePsychologicalState trades plan in
    (10 <= sr_confidence r <= 95)%Z
    /\ ((trades = [] \/ plan = None) -> sr_confidence r = 50%Z)
    /\ (trades <> [] -> plan <> None -> (sr_analyzedTradeCount r < 5)%nat ->
        (sr_confidence r <= 40)%Z).
Proof.
  intros trades plan r; subst r.
  destruct trades as [|t ts]; destruct plan as [p|];
    cbn [analyzePsychologicalState sr_confidence sr_analyzedTradeCount];
    try (split; [lia|split; [intros; reflexivity|intros; congruence]]).
  unfold calculateConfidence.
  set (c := js_round _).
  set (k := length (firstn 10 (t :: ts))).
  split; [|split].
  - destruct (Z.of_nat k <? 5)%Z; lia.
  - intros [H|H]; discriminate.
  - intros _ _ Hk.
    replace (Z.of_nat k <? 5)%Z with true by (symmetry; apply Z.ltb_lt; lia).
    lia.
Qed.

(** C4, as stated, fails: on an input with every feature of the worked
    example the classifier does not return AGGRESSIVE (two outside-session
    days of six is at least 0.33). *)
Lemma worked_example_not_aggressive :
  example_features example_trades example_plan
  /\ sr_state (analyzePsychologicalState example_trades (Some example_plan)) <> AGGRESSIVE.
Proof.
  split.
  - vm_compute. repeat split; reflexivity.
  - vm_compute. discriminate.
Qed.

(** C4 (amended): on that input the classifier computes plan adherence 80
    and a risk spike, returns OVEREXTENDED (2/6 >= 0.33 takes priority over
    AGGRESSIVE) and confidence 74. *)
Theorem worked_example_overextended :
  example_features example_trades example_plan
  /\ rs_riskSpike (calculateRiskSpike example_trades (3 # 2)) = true
  /\ let r := analyzePsychologicalState example_trades (Some example_plan) in
     sr_planAdherence r = 80%Z /\ sr_state r = OVEREXTENDED /\ sr_confidence r = 74%Z.
Proof.
  split; [vm_compute; repeat split; reflexivity|].
  split; [vm_compute; reflexivity|].
  vm_compute. repeat split.
Qed.

(** ** Performance insights *)

(** C5, as stated, fails: the no-data fallback has no POSITIVE insight. *)
Lemma insights_fallback_has_no_positive :
  has_type POSITIVE (ir_insights (analyzePerformanceInsights 0 [] (Some example_plan))) = false.
Proof. reflexivity. Qed.

(** C5 (amended): with at least one trade and a plan, the insights contain a
    POSITIVE one chosen by adherence >= 70, else win rate >= 60, else the
    generic one, and a CONSTRUCTIVE one chosen by early-exit ratio >= 0.3,
    else adherence < 60, else the generic one; with no trades or no plan
    the only insight is the CONSTRUCTIVE "Add data to unlock insights". *)
Theorem insights_positive_and_constructive :
  forall now trades plan,
    let r := analyzePerformanceInsights now trades plan in
    let adh := ps_planAdherence (ir_stats r) in
    let wr := ps_winRate (ir_stats r) in
    ((trades = [] \/ plan = None) ->
     ir_insights r = [mkInsight CONSTRUCTIVE "Add data to unlock insights"])
    /\ (trades <> [] -> plan <> None ->
        In (mkInsight POSITIVE (positive_title adh wr)) (ir_insights r)
        /\ In (mkInsight CONSTRUCTIVE
                 (constructive_title (qn (insightEarlyExits trades) / qlen trades) adh))
              (ir_insights r)).
Proof.
  intros now trades plan r adh wr; subst r adh wr.
  destruct trades as [|t ts]; destruct plan as [p|].
  1,2,4: split; [intros; reflexivity | intros H1 H2; congruence].
  unfold analyzePerformanceInsights.
  cbv beta iota zeta delta [ir_insights ir_stats ps_planAdherence ps_winRate].
  unfold positive_title, constructive_title.
  split; [intros [H|H]; discriminate|intros _ _].
  repeat match goal with
         | |- context [(70 <=? ?x)%Z] => destruct (70 <=? x)%Z
         | |- context [(60 <=? ?x)%Z] => destruct (60 <=? x)%Z
         | |- context [Qle_bool (3 # 10) ?x] => destruct (Qle_bool (3 # 10) x)
         | |- context [(?x <? 60)%Z] => destruct (x <? 60)%Z
         end; cbn; auto 6.
Qed.

Lemma insights_positive_and_constructive_witness :
  let r := analyzePerformanceInsights 0 example_trades (Some example_plan) in
  In (mkInsight POSITIVE (positive_title (ps_planAdherence (ir_stats r)) (ps_winRate (ir_stats r))))
     (ir_insights r).
Proof.
  destruct (insights_positive_and_constructive 0 example_trades (Some example_plan))
    as [_ H].
  exact (proj1 (H ltac:(discriminate) ltac:(discriminate))).
Defined.

(** ** Breathwork trigger *)

(** C6, as stated, fails: with battery 35, volatility 50, one impulsive trade
    in the last hour and the session-start battery of 100, the battery-drop
    trigger fires too and the urgency is not 35. *)
Lemma breathwork_example_two_triggers :
  countImpulsiveTradesLastHour breath_now breath_trades = 1%nat
  /\ let r := shouldSuggestBreathwork breath_now 35 50 breath_trades default_sessionStartBattery in
     bw_triggers r <> [low_battery] /\ ug_score (bw_urgency r) <> 35%Z.
Proof. vm_compute. repeat split; discriminate. Qed.

(** C6 (amended): with battery 35, volatility 50, exactly one impulsive
    trade in the trailing hour and the session-start battery 100 (the
    default, and what the service passes), breathwork is suggested with two
    triggers, low battery and battery drop (100 - 35 > 30); the urgency
    score is 2*20 + 15 + 20 = 75, in the "high" band. *)
Theorem breathwork_low_battery_example :
  forall now todayTrades,
    countImpulsiveTradesLastHour now todayTrades = 1%nat ->
    let r := shouldSuggestBreathwork now 35 50 todayTrades default_sessionStartBattery in
    bw_shouldSuggest r = true
    /\ bw_triggers r = [low_battery; battery_drop]
    /\ bw_urgency r = mkUrgency "high" 75
    /\ bw_breathworkType r = Some "Energizing Breath"%string.
Proof.
  intros now todayTrades H r; subst r.
  unfold shouldSuggestBreathwork. rewrite H. vm_compute. repeat split.
Qed.

Lemma breathwork_low_battery_example_witness :
  countImpulsiveTradesLastHour breath_now breath_trades = 1%nat
  /\ bw_triggers (shouldSuggestBreathwork breath_now 35 50 breath_trades
                    default_sessionStartBattery) = [low_battery; battery_drop].
Proof.
  assert (H : countImpulsiveTradesLastHour breath_now breath_trades = 1%nat)
    by (vm_compute; reflexivity).
  split; [exact H|].
  apply (breathwork_low_battery_example breath_now breath_trades H).
Defined.

(** ** State history *)

(** [round_sqrt v] is the [k] with [k - 1/2 <= sqrt v < k + 1/2], that is
    [Math.round(Math.sqrt(v))], stated on [4 v = (2 sqrt v)^2]. *)
Lemma round_sqrt_spec (v : Q) :
  0 <= v ->
  (0 <= round_sqrt v)%Z
  /\ (round_sqrt v = 0%Z
      \/ inject_Z ((2 * round_sqrt v - 1) * (2 * round_sqrt v - 1)) <= 4 * v)
  /\ 4 * v < inject_Z ((2 * round_sqrt v + 1) * (2 * round_sqrt v + 1)).
Proof.
  intros Hv. unfold round_sqrt.
  set (n := Qfloor (4 * v)).
  assert (Hn1 : inject_Z n <= 4 * v) by apply Qfloor_le.
  assert (Hn2 : 4 * v < inject_Z (n + 1)) by apply Qlt_floor.
  assert (Hn0 : (0 <= n)%Z).
  { unfold n. rewrite <- (Qfloor_Z 0). apply Qfloor_resp_le. change (inject_Z 0) with 0. lra. }
  destruct (Z.sqrt_spec n Hn0) as [Hs1 Hs2].
  set (s := Z.sqrt n) in *.
  assert (Hs0 : (0 <= s)%Z) by apply Z.sqrt_nonneg.
  assert (Hd := Z.div_mod (s + 1) 2 ltac:(lia)).
  assert (Hm := Z.mod_pos_bound (s + 1) 2 ltac:(lia)).
  set (k := ((s + 1) / 2)%Z) in *.
  assert (Hr : ((s + 1) mod 2 = 0 \/ (s + 1) mod 2 = 1)%Z) by lia.
  assert (Hz : (0 <= k /\ (k = 0 \/ (2 * k - 1) * (2 * k - 1) <= n)
                /\ n + 1 <= (2 * k + 1) * (2 * k + 1))%Z)
    by (destruct Hr as [Hr|Hr]; rewrite Hr in Hd; nia).
  destruct Hz as [Hk0 [Hk1 Hk2]].
  split; [exact Hk0|split].
  - destruct Hk1 as [Hk1|Hk1]; [left; exact Hk1|right].
    apply Qle_trans with (inject_Z n); [rewrite <- Zle_Qle; exact Hk1 | exact Hn1].
  - apply Qlt_le_trans with (inject_Z (n + 1)); [exact Hn2 | rewrite <- Zle_Qle; exact Hk2].
Qed.

(** C8 (code defect): on these five trades the history emits confidences
    40, 40, 75; their mean 51.67 is rounded to 52 before it centres the
    variance, so the reported volatility is 0.17 (sqrt 272.33 = 16.50),
    while the standard deviation about the exact mean is 16.499 and gives
    0.16. *)
Theorem history_volatility_uses_rounded_mean :
  let r := fst (analyzeStateHistory history_trades (Some history_plan) 10) in
  map hp_confidence (hr_history r) = [40; 40; 75]%Z
  /\ hs_averageConfidence (hr_summary r) = 52%Z
  /\ hs_volatility (hr_summary r) == 17 # 100
  /\ spec_volatility (map hp_confidence (hr_history r)) == 16 # 100.
Proof. vm_compute. repeat split. Qed.

(** C9 (code defect): [analyzeStateHistory] sorts the caller's array in place
    ([trades.sort(...)]), so after the call the array holds the trades in
    ascending entry order, not the order it was passed in. *)
Theorem history_reorders_caller_array :
  snd (analyzeStateHistory two_trades (Some history_plan) 10) = rev two_trades
  /\ snd (analyzeStateHistory two_trades (Some history_plan) 10) <> two_trades.
Proof. vm_compute. split; [reflexivity | discriminate]. Qed.

(** ** Null exclusion *)

Example avgRiskUsed_excludes_null :
  bm_avgRiskUsed (calculateBasicMetrics five_risk_trades) == 2.
Proof. vm_compute. reflexivity. Qed.

(** C1 (code defect): the radar's aggression averages only the truthy risks,
    so a non-null risk of 0 is left out: with risks 2.0 and 0.0 and plan
    risk 2 the aggression is 50, where the mean over the non-null risks
    (1.0) gives 25. *)
Theorem aggression_drops_zero_risk :
  calculateAggression zero_risk_trades (Some zero_risk_plan) = 50%Z
  /\ aggression_over_nonnull zero_risk_trades (Some zero_risk_plan) = 25%Z.
Proof. vm_compute. split; reflexivity. Qed.

(** ** Ranges of the scores *)

Lemma js_round_le (q : Q) (b : Z) : q <= inject_Z b -> (js_round q <= b)%Z.
Proof.
  intros H. unfold js_round.
  assert (H1 := Qfloor_le (q + (1 # 2))).
  destruct (Z_le_gt_dec (Qfloor (q + (1 # 2))) b) as [|Hg]; [assumption|].
  exfalso.
  assert (Hb : inject_Z (b + 1) <= inject_Z (Qfloor (q + (1 # 2))))
    by (rewrite <- Zle_Qle; lia).
  rewrite inject_Z_plus in Hb. change (inject_Z 1) with 1 in Hb. lra.
Qed.

Lemma js_round_ge (q : Q) (a : Z) : inject_Z a <= q -> (a <= js_round q)%Z.
Proof.
  intros H. unfold js_round. rewrite <- (Qfloor_Z a).
  apply Qfloor_resp_le. lra.
Qed.

Lemma js_round_0_100 (q : Q) : 0 <= q <= 100 -> (0 <= js_round q <= 100)%Z.
Proof. intros [H1 H2]. split; [apply js_round_ge | apply js_round_le]; assumption. Qed.

Lemma ratio_unit (x y : Q) : 0 <= x -> x <= y -> 0 < y -> 0 <= x / y <= 1.
Proof.
  intros H1 H2 H3. split.
  - apply Qle_shift_div_l; [assumption | lra].
  - apply Qle_shift_div_r; [assumption | lra].
Qed.

Lemma div_nonneg (x y : Q) : 0 <= x -> 0 <= y -> 0 <= x / y.
Proof. intros. apply Qmult_le_0_compat; [|apply Qinv_le_0_compat]; assumption. Qed.

Lemma qn_nonneg (a : nat) : 0 <= qn a.
Proof. unfold qn. change 0 with (inject_Z 0). rewrite <- Zle_Qle. lia. Qed.

Lemma qn_le (a b : nat) : (a <= b)%nat -> qn a <= qn b.
Proof. intros. unfold qn. rewrite <- Zle_Qle. lia. Qed.

Lemma qn_pos (a : nat) : (0 < a)%nat -> 0 < qn a.
Proof. intros. unfold qn. change 0 with (inject_Z 0). rewrite <- Zlt_Qlt. lia. Qed.

Lemma Qmax1_ge (x : Q) : 1 <= Qmax1 x /\ x <= Qmax1 x.
Proof. unfold Qmax1. split; [apply Q.le_max_l | apply Q.le_max_r]. Qed.

Lemma ratio_Qmax1 (a b : nat) : (a <= b)%nat -> 0 <= qn a / Qmax1 (qn b) <= 1.
Proof.
  intros H. destruct (Qmax1_ge (qn b)) as [H1 H2].
  apply ratio_unit; [apply qn_nonneg | apply (Qle_trans _ (qn b)); [apply qn_le; exact H | exact H2] | lra].
Qed.

Lemma calculatePlanAdherence_bounds (m : BasicMetrics) (rb : nat) (d : DayMetrics) (n : nat) :
  (rb <= n)%nat ->
  (dm_outsideSessionDays d <= dm_daysWithTrades d)%nat ->
  (dm_exceededDays d <= dm_daysWithTrades d)%nat ->
  (0 <= calculatePlanAdherence m rb d n <= 100)%Z.
Proof.
  intros H1 H2 H3. unfold calculatePlanAdherence. cbv zeta.
  apply js_round_0_100.
  assert (Hr := ratio_Qmax1 _ _ H1).
  assert (Hs := ratio_Qmax1 _ _ H2).
  assert (He := ratio_Qmax1 _ _ H3).
  assert (Ht : 0 <= Qmin 1 (qn (bm_nearTargetHits m) / Qmax1 (qn n)) <= 1).
  { split; [|apply Q.le_min_l].
    apply Q.min_glb; [lra|]. apply div_nonneg; [apply qn_nonneg|].
    destruct (Qmax1_ge (qn n)); lra. }
  assert (E : forall x, x / ((4 # 10) + (25 # 100) + (25 # 100) + (1 # 10)) == x)
    by (intros; field).
  rewrite E.
  revert Hr Hs He Ht.
  generalize (qn rb / Qmax1 (qn n)), (qn (dm_outsideSessionDays d) / Qmax1 (qn (dm_daysWithTrades d))),
    (qn (dm_exceededDays d) / Qmax1 (qn (dm_daysWithTrades d))),
    (Qmin 1 (qn (bm_nearTargetHits m) / Qmax1 (qn n))).
  intros. lra.
Qed.

Lemma bump_keys (k x : Z) (m : list (Z * nat)) :
  In x (map fst m) \/ x = k -> In x (map fst (bump k m)).
Proof.
  induction m as [|[k' c] m IH]; cbn [bump map fst]; intros H.
  - destruct H as [[]|H]. left. congruence.
  - destruct (k' =? k)%Z eqn:E; cbn [map fst In] in *.
    + apply Z.eqb_eq in E. destruct H as [[H|H]|H]; [left; exact H | right; exact H | left; congruence].
    + destruct H as [[H|H]|H]; [left; exact H | right; apply IH; left; exact H | right; apply IH; right; exact H].
Qed.

Lemma mark_nodup (k : Z) (s : list Z) : NoDup s -> NoDup (mark k s).
Proof.
  intros H. unfold mark. destruct (existsb (Z.eqb k) s) eqn:E; [exact H|].
  apply NoDup_app; [exact H | constructor; [intros []|constructor] |].
  intros a Ha [Hk|[]]. subst a.
  assert (existsb (Z.eqb k) s = true) by (apply existsb_exists; exists k; split; [exact Ha | apply Z.eqb_refl]).
  congruence.
Qed.

Lemma mark_in (k x : Z) (s : list Z) : In x (mark k s) -> x = k \/ In x s.
Proof.
  unfold mark. destruct (existsb (Z.eqb k) s); [intros H; right; exact H|].
  intros H. apply in_app_or in H. destruct H as [H|[H|[]]]; [right; exact H | left; congruence].
Qed.

Lemma day_tables_inv (plan : TradingPlan) (trades : list Trade)
  (byDay : list (Z * nat)) (outside : list Z) :
  NoDup outside -> incl outside (map fst byDay) ->
  NoDup (snd (fold_left (day_step plan) trades (byDay, outside)))
  /\ incl (snd (fold_left (day_step plan) trades (byDay, outside)))
          (map fst (fst (fold_left (day_step plan) trades (byDay, outside)))).
Proof.
  revert byDay outside.
  induction trades as [|t ts IH]; intros byDay outside H1 H2; cbn [fold_left].
  - split; assumption.
  - unfold day_step at 2. apply IH.
    + destruct (negb _); [apply mark_nodup|]; exact H1.
    + intros x Hx. apply bump_keys.
      destruct (negb _).
      * apply mark_in in Hx. destruct Hx as [Hx|Hx]; [right; exact Hx | left; apply H2; exact Hx].
      * left. apply H2. exact Hx.
Qed.

Lemma dayMetrics_bounds (trades : list Trade) (plan : TradingPlan) :
  (dm_outsideSessionDays (calculateDayMetrics trades plan)
   <= dm_daysWithTrades (calculateDayMetrics trades plan))%nat
  /\ (dm_exceededDays (calculateDayMetrics trades plan)
      <= dm_daysWithTrades (calculateDayMetrics trades plan))%nat.
Proof.
  unfold calculateDayMetrics, day_tables.
  destruct (day_tables_inv plan trades [] [] (NoDup_nil _) (incl_nil_l _)) as [H1 H2].
  destruct (fold_left (day_step plan) trades ([], [])) as [byDay outside].
  cbn [fst snd] in *.
  assert (Ho : (length outside <= length byDay)%nat)
    by (rewrite <- (length_map fst byDay); apply NoDup_incl_length; assumption).
  assert (He := filter_length_le (fun kc => exceeds_cap plan (snd kc)) byDay).
  cbn [dm_outsideSessionDays dm_exceededDays dm_daysWithTrades].
  destruct (length byDay); lia.
Qed.

Lemma psych_planAdherence_bounds (trades : list Trade) (plan : option TradingPlan) :
  (0 <= sr_planAdherence (analyzePsychologicalState trades plan) <= 100)%Z.
Proof.
  unfold analyzePsychologicalState.
  destruct trades as [|t ts]; [cbn; lia|]. destruct plan as [p|]; [|cbn; lia].
  cbv beta iota zeta delta [sr_planAdherence].
  destruct (dayMetrics_bounds (firstn 10 (t :: ts)) p).
  apply calculatePlanAdherence_bounds; [apply filter_length_le | assumption | assumption].
Qed.

Lemma insights_planAdherence_bounds (now : Z) (trades : list Trade) (plan : option TradingPlan) :
  (0 <= ps_planAdherence (ir_stats (analyzePerformanceInsights now trades plan)) <= 100)%Z.
Proof.
  unfold analyzePerformanceInsights.
  destruct trades as [|t ts]; [cbn; lia|]. destruct plan as [p|]; [|cbn; lia].
  cbv beta iota zeta delta [ir_stats ps_planAdherence].
  apply js_round_0_100.
  change (qlen (t :: ts)) with (qn (length (t :: ts))).
  assert (Hp : 0 < qn (length (t :: ts))) by (apply qn_pos; cbn; lia).
  match goal with |- context [qn (length (filter ?f (t :: ts))) / _] =>
    assert (Hr := ratio_unit _ _ (qn_nonneg _) (qn_le _ _ (filter_length_le f (t :: ts))) Hp);
    generalize dependent (qn (length (filter f (t :: ts))) / qn (length (t :: ts))) end.
  match goal with |- context [qn (length (filter ?f (t :: ts))) / _] =>
    assert (Hs := ratio_unit _ _ (qn_nonneg _) (qn_le _ _ (filter_length_le f (t :: ts))) Hp);
    generalize dependent (qn (length (filter f (t :: ts))) / qn (length (t :: ts))) end.
  intros r1 Hr1 r2 Hr2.
  assert (E : forall x, x / 2 == x * (1 # 2)) by reflexivity.
  rewrite E. lra.
Qed.

Lemma insert_by_length {A} (key : A -> Z) (x : A) (l : list A) :
  length (insert_by key x l) = S (length l).
Proof.
  induction l as [|y l IH]; cbn [insert_by]; [reflexivity|].
  destruct (key y <? key x)%Z; cbn [length]; [rewrite IH|]; reflexivity.
Qed.

Lemma sort_by_length {A} (key : A -> Z) (l : list A) : length (sort_by key l) = length l.
Proof.
  induction l as [|x l IH]; cbn [sort_by]; [reflexivity|].
  rewrite insert_by_length, IH. reflexivity.
Qed.

Lemma calculateTradeScore_bounds (t : Trade) (plan : option TradingPlan) (prev : option Trade) :
  (0 <= calculateTradeScore t plan prev <= 100)%Z.
Proof.
  unfold calculateTradeScore. cbv zeta.
  repeat match goal with |- context [if ?c then _ else _] => destruct c end; lia.
Qed.

Lemma scores_with_prev_bounds (plan : option TradingPlan) (prev : option Trade) (l : list Trade) :
  Forall (fun s => 0 <= s <= 100)%Z (scores_with_prev plan prev l)
  /\ length (scores_with_prev plan prev l) = length l.
Proof.
  revert prev. induction l as [|t l IH]; intros prev; cbn [scores_with_prev length].
  - split; [constructor | reflexivity].
  - destruct (IH (Some t)) as [H1 H2]. split.
    + constructor; [apply calculateTradeScore_bounds | exact H1].
    + rewrite H2. reflexivity.
Qed.

Lemma fold_add_bounds (l : list Z) (acc : Z) :
  Forall (fun s => 0 <= s <= 100)%Z l -> (0 <= acc)%Z ->
  (0 <= fold_left Z.add l acc <= acc + 100 * Z.of_nat (length l))%Z.
Proof.
  revert acc. induction l as [|x l IH]; intros acc H Hacc; cbn [fold_left length].
  - lia.
  - inversion H as [|? ? Hx Hl]; subst.
    specialize (IH (acc + x)%Z Hl ltac:(lia)). lia.
Qed.

(** The mean of per-trade scores in [0, 100], rounded. *)
Lemma mean_score_bounds (l : list Z) (n : nat) :
  Forall (fun s => 0 <= s <= 100)%Z l -> length l = n -> (0 < n)%nat ->
  (0 <= js_round (qz (fold_left Z.add l 0%Z) / qn n) <= 100)%Z.
Proof.
  intros H Hn Hpos. apply js_round_0_100.
  destruct (fold_add_bounds l 0 H (Z.le_refl 0)) as [H1 H2].
  assert (Hq := qn_pos n Hpos). split.
  - apply Qle_shift_div_l; [exact Hq|].
    rewrite Qmult_0_l. unfold qz. change 0 with (inject_Z 0). rewrite <- Zle_Qle. exact H1.
  - apply Qle_shift_div_r; [exact Hq|].
    unfold qz, qn. change 100 with (inject_Z 100). rewrite <- inject_Z_mult, <- Zle_Qle.
    subst n. lia.
Qed.

Lemma calculatePlanControl_bounds (trades : list Trade) (plan : option TradingPlan) :
  (0 <= calculatePlanControl trades plan <= 100)%Z.
Proof.
  unfold calculatePlanControl. destruct trades as [|t ts]; [lia|]. cbv zeta.
  destruct (scores_with_prev_bounds plan None (sort_by by_entry (firstn 5 (t :: ts)))) as [H1 H2].
  change (qlen (sort_by by_entry (firstn 5 (t :: ts))))
    with (qn (length (sort_by by_entry (firstn 5 (t :: ts))))).
  apply mean_score_bounds; [exact H1 | exact H2 |].
  rewrite sort_by_length. cbn. lia.
Qed.

Lemma min100_round_bounds (q : Q) : 0 <= q -> (0 <= Z.min 100 (js_round q) <= 100)%Z.
Proof. intros H. apply (js_round_ge q 0) in H. lia. Qed.

Lemma qz_nonneg (z : Z) : (0 <= z)%Z -> 0 <= qz z.
Proof. intros. unfold qz. change 0 with (inject_Z 0). rewrite <- Zle_Qle. exact H. Qed.

Lemma forallb_firstn {A} (f : A -> bool) (n : nat) (l : list A) :
  forallb f l = true -> forallb f (firstn n l) = true.
Proof.
  revert l. induction n as [|n IH]; intros l H; [reflexivity|].
  destruct l as [|x l]; [reflexivity|]. cbn [firstn forallb] in *.
  apply andb_true_iff in H. destruct H as [H1 H2]. rewrite H1, (IH l H2). reflexivity.
Qed.

Lemma qsum_nonneg_acc (l : list Q) (acc : Q) :
  Forall (fun x => 0 <= x) l -> 0 <= acc -> 0 <= fold_left Qplus l acc.
Proof.
  revert acc. induction l as [|x l IH]; intros acc H Hacc; cbn [fold_left]; [exact Hacc|].
  inversion H as [|? ? Hx Hl]; subst. apply IH; [exact Hl | lra].
Qed.

Lemma truthy_vals_nonneg (trades : list Trade) :
  risks_nonneg trades = true -> Forall (fun x => 0 <= x) (truthy_vals riskPercentUsed trades).
Proof.
  unfold risks_nonneg, truthy_vals. induction trades as [|t ts IH]; intros H; [constructor|].
  cbn [forallb flat_map] in *. apply andb_true_iff in H. destruct H as [H1 H2].
  apply Forall_app. split; [|exact (IH H2)].
  destruct (riskPercentUsed t) as [r|]; [|constructor].
  destruct (Qeq_bool r 0); [constructor|]. constructor; [|constructor].
  apply Qle_bool_iff. exact H1.
Qed.

Lemma planRisk_or1_pos (plan : option TradingPlan) :
  plan_risk_nonneg plan = true -> 0 < planRisk_or1 plan.
Proof.
  destruct plan as [p|]; cbn [plan_risk_nonneg planRisk_or1]; [|intros; reflexivity].
  intros H. apply Qle_bool_iff in H. unfold or_default.
  destruct (Qeq_bool (riskPercentPerTrade p) 0) eqn:E; [reflexivity|].
  apply Qeq_bool_neq in E. apply Qle_lteq in H. destruct H as [H|H]; [exact H|].
  exfalso. apply E. symmetry. exact H.
Qed.

Lemma calculateDiscipline_bounds (trades : list Trade) (plan : option TradingPlan) (pc : Z) :
  (0 <= pc)%Z -> (0 <= calculateDiscipline trades plan pc <= 100)%Z.
Proof.
  intros H. unfold calculateDiscipline. cbv zeta.
  repeat match goal with |- context [if ?c then _ else _] => destruct c end; lia.
Qed.

Lemma calculateImpulseControl_bounds (trades : list Trade) :
  (0 <= calculateImpulseControl trades <= 100)%Z.
Proof.
  unfold calculateImpulseControl. destruct (Nat.ltb _ 2); [lia|]. cbv zeta.
  set (r := qn (impulsive_pairs (sort_by by_entry trades)) / 5 * 100).
  assert (Hr : 0 <= r) by (apply Qmult_le_0_compat; [apply div_nonneg; [apply qn_nonneg | discriminate] | discriminate]).
  assert (js_round (100 - r) <= 100)%Z
    by (apply js_round_le; change (inject_Z 100) with 100; lra).
  lia.
Qed.

Lemma calculateAggression_bounds (trades : list Trade) (plan : option TradingPlan) :
  risks_nonneg trades = true -> plan_risk_nonneg plan = true ->
  (0 <= calculateAggression trades plan <= 100)%Z.
Proof.
  intros Hr Hp. unfold calculateAggression. destruct trades as [|t ts]; [lia|]. cbv zeta.
  assert (Hpr := planRisk_or1_pos plan Hp).
  assert (Hv := truthy_vals_nonneg (t :: ts) Hr).
  set (B := match truthy_vals riskPercentUsed (t :: ts) with
            | [] => 0
            | _ :: _ => qsum (truthy_vals riskPercentUsed (t :: ts))
                        / qlen (truthy_vals riskPercentUsed (t :: ts)) / planRisk_or1 plan * 50
            end).
  assert (HB : 0 <= B).
  { unfold B. destruct (truthy_vals riskPercentUsed (t :: ts)) as [|v vs]; [lra|].
    apply Qmult_le_0_compat; [|discriminate].
    apply div_nonneg; [apply div_nonneg|lra].
    - apply qsum_nonneg_acc; [exact Hv | lra].
    - apply qn_nonneg. }
  repeat match goal with |- context [if ?c then _ else _] => destruct c end;
    apply min100_round_bounds; lra.
Qed.

Lemma calculateHesitation_bounds (trades : list Trade) :
  (0 <= calculateHesitation trades <= 100)%Z.
Proof.
  unfold calculateHesitation. destruct trades as [|t ts]; [lia|]. cbv zeta.
  set (B := qn (length (filter exitedEarly (t :: ts))) / 5 * 100).
  assert (HB : 0 <= B)
    by (apply Qmult_le_0_compat; [apply div_nonneg; [apply qn_nonneg | discriminate] | discriminate]).
  repeat match goal with |- context [if ?c then _ else _] => destruct c end;
    apply min100_round_bounds; lra.
Qed.

Lemma calculateConsistency_bounds (trades : list Trade) (plan : option TradingPlan) :
  (0 <= calculateConsistency trades plan <= 100)%Z.
Proof. unfold calculateConsistency. destruct trades; cbv zeta; lia. Qed.

Lemma calculateEmotionalVolatility_bounds (a h : Z) :
  (0 <= calculateEmotionalVolatility a h <= 100)%Z.
Proof.
  unfold calculateEmotionalVolatility. cbv zeta.
  assert (Hv : 0 <= qz (Z.abs (a - h)) / 2) by (apply div_nonneg; [apply qz_nonneg; lia | discriminate]).
  destruct (_ && _); apply min100_round_bounds; lra.
Qed.

Lemma radar_bounds (trades : list Trade) (plan : option TradingPlan) :
  risks_nonneg trades = true -> plan_risk_nonneg plan = true ->
  Forall (fun v => 0 <= v <= 100)%Z (radar_traits (calculatePsychologicalRadar trades plan)).
Proof.
  intros Hr Hp. unfold calculatePsychologicalRadar.
  destruct trades as [|t ts].
  - cbv [radar_traits discipline impulseControl aggression hesitation consistency
         emotionalVolatility].
    repeat (apply Forall_cons; [lia|]). apply Forall_nil.
  - cbv beta iota zeta delta [radar_traits discipline impulseControl aggression hesitation
                               consistency emotionalVolatility].
    assert (Hr5 := forallb_firstn _ 5 _ Hr).
    repeat apply Forall_cons.
    + apply calculateDiscipline_bounds, calculatePlanControl_bounds.
    + apply calculateImpulseControl_bounds.
    + apply calculateAggression_bounds; assumption.
    + apply calculateHesitation_bounds.
    + apply calculateConsistency_bounds.
    + apply calculateEmotionalVolatility_bounds.
    + apply Forall_nil.
Qed.

Lemma calculateMentalBattery_bounds (todayTrades : list Trade) (plan : option TradingPlan) (pc : Z) :
  (0 <= calculateMentalBattery todayTrades plan pc <= 100)%Z.
Proof. unfold calculateMentalBattery. destruct todayTrades; cbv zeta; lia. Qed.

Lemma calculateWindowScore_bounds (trades : list Trade) (plan : option TradingPlan) :
  (0 <= calculateWindowScore trades plan <= 100)%Z.
Proof.
  unfold calculateWindowScore. cbv zeta. apply js_round_0_100. split.
  - apply Q.le_max_l.
  - apply Q.max_lub; [discriminate | apply Q.le_min_l].
Qed.

Lemma heatmap_bounds (tzOffset : Z) (trades : list Trade) (plan : option TradingPlan)
  (w : TimeWindow) (s : Z) :
  In (w, Some s) (calculateBehaviorHeatmap tzOffset trades plan) -> (0 <= s <= 100)%Z.
Proof.
  unfold calculateBehaviorHeatmap. intros H. apply in_map_iff in H.
  destruct H as [w' [Hw _]]. cbv zeta in Hw.
  destruct (filter _ trades) as [|t ts]; [discriminate|].
  injection Hw as _ <-. apply calculateWindowScore_bounds.
Qed.

(** C7: for every input whose risks satisfy the schemas' [min: 0], the
    plan adherence (of the state analysis and of the insights), each of the
    six radar traits, the mental battery, the plan-control percentage and
    every computed heatmap window score lie in [0, 100]. *)
Theorem scores_within_0_100 (trades : list Trade) (plan : option TradingPlan)
  (now tzOffset planControlPercent : Z) :
  risks_nonneg trades = true -> plan_risk_nonneg plan = true ->
  (0 <= sr_planAdherence (analyzePsychologicalState trades plan) <= 100)%Z
  /\ (0 <= ps_planAdherence (ir_stats (analyzePerformanceInsights now trades plan)) <= 100)%Z
  /\ Forall (fun v => 0 <= v <= 100)%Z (radar_traits (calculatePsychologicalRadar trades plan))
  /\ (0 <= calculateMentalBattery trades plan planControlPercent <= 100)%Z
  /\ (0 <= calculatePlanControl trades plan <= 100)%Z
  /\ (forall w s, In (w, Some s) (calculateBehaviorHeatmap tzOffset trades plan)
                  -> (0 <= s <= 100)%Z).
Proof.
  intros Hr Hp. split; [|split; [|split; [|split; [|split]]]].
  - apply psych_planAdherence_bounds.
  - apply insights_planAdherence_bounds.
  - apply radar_bounds; assumption.
  - apply calculateMentalBattery_bounds.
  - apply calculatePlanControl_bounds.
  - intros w s. apply heatmap_bounds.
Qed.

Lemma scores_within_0_100_witness :
  risks_nonneg example_trades = true /\ plan_risk_nonneg (Some example_plan) = true
  /\ (0 <= sr_planAdherence (analyzePsychologicalState example_trades (Some example_plan)) <= 100)%Z
  /\ (0 <= calculatePlanControl example_trades (Some example_plan) <= 100)%Z.
Proof.
  assert (Hr : risks_nonneg example_trades = true) by (vm_compute; reflexivity).
  assert (Hp : plan_risk_nonneg (Some example_plan) = true) by (vm_compute; reflexivity).
  destruct (scores_within_0_100 example_trades (Some example_plan) 0 0 0 Hr Hp)
    as [H1 [_ [_ [_ [H5 _]]]]].
  split; [exact Hr | split; [exact Hp | split; [exact H1 | exact H5]]].
Defined.

(* ================================================================== *)
(** * Further properties of the code *)

(** ** Heatmap windows *)

Lemma localHour_range (tzOffset ms : Z) : (0 <= localHour tzOffset ms < 24)%Z.
Proof.
  unfold localHour.
  pose proof (Z.mod_pos_bound (ms + tzOffset) 86400000 ltac:(lia)).
  split; [apply Z.div_pos; lia|].
  apply Z.div_lt_upper_bound; lia.
Qed.

Lemma getTimeWindow_in (tzOffset : Z) (t : Trade) :
  exists w, getTimeWindow tzOffset t = Some w /\ In w TIME_WINDOWS.
Proof.
  unfold getTimeWindow.
  pose proof (localHour_range tzOffset (entryTime t)) as Hr.
  remember (localHour tzOffset (entryTime t)) as h eqn:Eh; clear Eh.
  assert (h = 0 \/ h = 1 \/ h = 2 \/ h = 3 \/ h = 4 \/ h = 5 \/ h = 6 \/ h = 7 \/
          h = 8 \/ h = 9 \/ h = 10 \/ h = 11 \/ h = 12 \/ h = 13 \/ h = 14 \/ h = 15 \/
          h = 16 \/ h = 17 \/ h = 18 \/ h = 19 \/ h = 20 \/ h = 21 \/ h = 22 \/ h = 23)%Z
    as Hc by lia.
  repeat destruct Hc as [Hc|Hc]; subst h; eexists; (split; [reflexivity|]);
    cbn [TIME_WINDOWS In]; tauto.
Qed.

Lemma window_eqb_unique (w : TimeWindow) :
  In w TIME_WINDOWS -> length (filter (window_eqb w) TIME_WINDOWS) = 1%nat.
Proof.
  intros H; cbn [TIME_WINDOWS In] in H.
  repeat destruct H as [H|H]; try contradiction; subst w; reflexivity.
Qed.

Lemma window_sum_partition (ws : list TimeWindow) (P : TimeWindow -> Trade -> bool)
  (trades : list Trade) :
  (forall t, length (filter (fun w => P w t) ws) = 1%nat) ->
  list_sum (map (fun w => length (filter (P w) trades)) ws) = length trades.
Proof.
  intros H1. induction trades as [|t ts IH].
  - clear H1. induction ws as [|w ws IHw]; [reflexivity|]. exact IHw.
  - transitivity (length (filter (fun w => P w t) ws)
                  + list_sum (map (fun w => length (filter (P w) ts)) ws))%nat.
    + clear IH H1. induction ws as [|w ws IHw]; [reflexivity|].
      change (list_sum (map ?f (w :: ws))) with (f w + list_sum (map f ws))%nat.
      rewrite IHw. cbn [filter].
      destruct (P w t); cbn [length]; lia.
    + rewrite H1, IH. reflexivity.
Qed.

Lemma windowTrades_total (tzOffset : Z) (trades : list Trade) :
  list_sum (map (fun w => length (windowTrades tzOffset trades w)) TIME_WINDOWS)
  = length trades.
Proof.
  unfold windowTrades. apply window_sum_partition.
  intros t. destruct (getTimeWindow_in tzOffset t) as [w [E Hw]].
  rewrite E. exact (window_eqb_unique w Hw).
Qed.

Lemma heatmap_windows_counts (tzOffset : Z) (trades : list Trade) (plan : option TradingPlan) :
  map hw_tradeCount (hm_windows (calculateBehaviorHeatmap_windows tzOffset trades plan))
  = map (fun w => length (windowTrades tzOffset trades w)) TIME_WINDOWS.
Proof.
  cbn [calculateBehaviorHeatmap_windows hm_windows]. rewrite map_map.
  apply map_ext. intros w. destruct (windowTrades tzOffset trades w); reflexivity.
Qed.

Lemma windowTrades_own (tzOffset : Z) (t : Trade) (trades : list Trade) (w : TimeWindow) :
  getTimeWindow tzOffset t = Some w -> In t trades -> windowTrades tzOffset trades w <> [].
Proof.
  intros E Hin Hnil.
  assert (Hf : In t (windowTrades tzOffset trades w)).
  { unfold windowTrades. apply filter_In. split; [exact Hin|].
    rewrite E. unfold window_eqb. apply String.eqb_refl. }
  rewrite Hnil in Hf. contradiction.
Qed.

Lemma deriveHeatmapInsight_insufficient (windows : list HeatmapWindow) :
  hi_case (deriveHeatmapInsight windows) = insufficient_data
  <-> filter (fun w => is_some (hw_score w) && Nat.ltb 0 (hw_tradeCount w)) windows = [].
Proof.
  unfold deriveHeatmapInsight.
  destruct (filter _ windows) as [|a rest]; [tauto|].
  cbv zeta.
  repeat match goal with |- context [if ?c then _ else _] => destruct c end;
    cbn [hi_case]; split; discriminate.
Qed.

Lemma heatmap_active_window (tzOffset : Z) (trades : list Trade) (plan : option TradingPlan)
  (w : TimeWindow) :
  In w TIME_WINDOWS -> windowTrades tzOffset trades w <> [] ->
  filter (fun hw => is_some (hw_score hw) && Nat.ltb 0 (hw_tradeCount hw))
    (hm_windows (calculateBehaviorHeatmap_windows tzOffset trades plan)) <> [].
Proof.
  intros Hw Hne Hnil.
  destruct (windowTrades tzOffset trades w) as [|x xs] eqn:E; [contradiction|].
  set (hw := mkHeatmapWindow w (Some (calculateWindowScore (x :: xs) plan))
               (getColorStatus (calculateWindowScore (x :: xs) plan)) (length (x :: xs))).
  assert (Hin : In hw (filter (fun hw => is_some (hw_score hw) && Nat.ltb 0 (hw_tradeCount hw))
                 (hm_windows (calculateBehaviorHeatmap_windows tzOffset trades plan)))).
  { apply filter_In. split; [|reflexivity].
    cbn [calculateBehaviorHeatmap_windows hm_windows].
    apply in_map_iff. exists w. split; [|exact Hw]. rewrite E. reflexivity. }
  rewrite Hnil in Hin. contradiction.
Qed.

(** X1: every trade falls in exactly one of the eight windows, so the
    window trade counts add up to [totalTrades]. *)
Theorem heatmap_counts_sum_to_total (tzOffset : Z) (trades : list Trade)
  (plan : option TradingPlan) :
  list_sum (map hw_tradeCount (hm_windows (calculateBehaviorHeatmap_windows tzOffset trades plan)))
  = hm_totalTrades (calculateBehaviorHeatmap_windows tzOffset trades plan).
Proof.
  rewrite heatmap_windows_counts, windowTrades_total. reflexivity.
Qed.

(** X2: [calculateBehaviorHeatmapWithInsight] answers "Insufficient data
    to derive behavioral insights" exactly when there are no trades. *)
Theorem heatmap_insight_insufficient_iff_no_trades (tzOffset : Z) (trades : list Trade)
  (plan : option TradingPlan) :
  hi_case (snd (calculateBehaviorHeatmapWithInsight tzOffset trades plan)) = insufficient_data
  <-> trades = [].
Proof.
  unfold calculateBehaviorHeatmapWithInsight. cbn [snd].
  rewrite deriveHeatmapInsight_insufficient. split.
  - intros H. destruct trades as [|t ts]; [reflexivity|]. exfalso.
    destruct (getTimeWindow_in tzOffset t) as [w [E Hw]].
    exact (heatmap_active_window tzOffset (t :: ts) plan w Hw
             (windowTrades_own tzOffset t (t :: ts) w E (or_introl eq_refl)) H).
  - intros ->. reflexivity.
Qed.

(** ** simpleHash and the daily quote *)

Lemma toInt32_eq (x : Z) : toInt32 x = (x - 2 ^ 32 * ((x + 2 ^ 31) / 2 ^ 32))%Z.
Proof.
  unfold toInt32. pose proof (Z.div_mod (x + 2 ^ 31) (2 ^ 32) ltac:(lia)). lia.
Qed.

Lemma toInt32_shift (x k : Z) : toInt32 (x + 2 ^ 32 * k) = toInt32 x.
Proof.
  unfold toInt32. f_equal.
  replace (x + 2 ^ 32 * k + 2 ^ 31)%Z with (x + 2 ^ 31 + k * 2 ^ 32)%Z by ring.
  apply Z.mod_add. lia.
Qed.

Lemma toInt32_range (x : Z) : (- 2 ^ 31 <= toInt32 x < 2 ^ 31)%Z.
Proof.
  unfold toInt32. pose proof (Z.mod_pos_bound (x + 2 ^ 31) (2 ^ 32) ltac:(lia)). lia.
Qed.

Lemma fold_hash_shift (cs : list Z) (x d : Z) :
  fold_left hash_step cs (x + d)%Z
  = (fold_left hash_step cs x + 31 ^ Z.of_nat (length cs) * d)%Z.
Proof.
  revert x d. induction cs as [|c cs IH]; intros x d; cbn [fold_left length].
  - lia.
  - change (hash_step (x + d) c) with (31 * (x + d) + c)%Z.
    change (hash_step x c) with (31 * x + c)%Z.
    replace (31 * (x + d) + c)%Z with ((31 * x + c) + 31 * d)%Z by ring.
    rewrite IH, Nat2Z.inj_succ, Z.pow_succ_r by lia. ring.
Qed.

Lemma simpleHash_loop_poly (cs : list Z) (h : Z) :
  simpleHash_loop (toInt32 h) cs = toInt32 (fold_left hash_step cs h).
Proof.
  revert h. induction cs as [|c cs IH]; intros h; cbn [simpleHash_loop fold_left]; [reflexivity|].
  rewrite IH. change (hash_step h c) with (31 * h + c)%Z.
  assert (Hk : exists k, (toInt32 (Z.shiftl (toInt32 h) 5) - toInt32 h + c
                          = 31 * h + c + 2 ^ 32 * k)%Z).
  { rewrite Z.shiftl_mul_pow2 by lia.
    pose proof (toInt32_eq h) as E0.
    pose proof (toInt32_eq (toInt32 h * 2 ^ 5)) as E1.
    remember ((h + 2 ^ 31) / 2 ^ 32)%Z as q0.
    remember ((toInt32 h * 2 ^ 5 + 2 ^ 31) / 2 ^ 32)%Z as q1.
    exists (- (31 * q0) - q1)%Z. rewrite E1, E0. ring. }
  destruct Hk as [k Ek]. rewrite Ek, fold_hash_shift.
  replace (31 ^ Z.of_nat (length cs) * (2 ^ 32 * k))%Z
    with (2 ^ 32 * (31 ^ Z.of_nat (length cs) * k))%Z by ring.
  apply toInt32_shift.
Qed.

(** X3: [simpleHash] is the absolute value of the 32-bit wrap of the
    polynomial hash [c0 * 31^(n-1) + ... + c(n-1)] of the character
    codes, and lies in [[0, 2^31]]. *)
Theorem simpleHash_polynomial (codes : list Z) :
  simpleHash codes = Z.abs (toInt32 (fold_left (fun h c => (31 * h + c)%Z) codes 0%Z))
  /\ (0 <= simpleHash codes <= 2 ^ 31)%Z.
Proof.
  assert (E : simpleHash codes = Z.abs (toInt32 (fold_left hash_step codes 0%Z))).
  { unfold simpleHash. change 0%Z with (toInt32 0) at 1. rewrite simpleHash_loop_poly.
    reflexivity. }
  split; [exact E|].
  rewrite E. pose proof (toInt32_range (fold_left hash_step codes 0%Z)). lia.
Qed.

Lemma simpleHash_range (codes : list Z) : (0 <= simpleHash codes <= 2 ^ 31)%Z.
Proof.
  unfold simpleHash. rewrite (simpleHash_loop_poly codes 0%Z : simpleHash_loop 0 codes = _).
  pose proof (toInt32_range (fold_left hash_step codes 0%Z)). lia.
Qed.

(** X4: with a non-empty quote list, [getDailyQuote] always returns one of
    the quotes, stamped with [today]: the index [hash % QUOTES.length] never
    falls outside the list. *)
Theorem getDailyQuote_in_quotes (QUOTES : list Quote) (userId today : string) :
  QUOTES <> [] ->
  exists q, In q QUOTES
            /\ getDailyQuote QUOTES userId today
               = Some (mkDailyQuote (quote_id q) (quote_text q) (quote_author q)
                         (quote_category q) today).
Proof.
  intros Hne. unfold getDailyQuote.
  destruct QUOTES as [|q0 qs] eqn:EQ; [contradiction|]. rewrite <- EQ.
  set (n := length QUOTES).
  set (i := (simpleHash _ mod Z.of_nat n)%Z).
  assert (Hn : (0 < Z.of_nat n)%Z) by (subst n; rewrite EQ; cbn [length]; lia).
  assert (Hi : (0 <= i < Z.of_nat n)%Z) by (apply Z.mod_pos_bound; exact Hn).
  assert (Hlt : (Z.to_nat i < length QUOTES)%nat) by (subst n; lia).
  destruct (nth_error QUOTES (Z.to_nat i)) as [q|] eqn:E.
  - exists q. split; [exact (nth_error_In _ _ E) | reflexivity].
  - apply nth_error_None in E. lia.
Qed.

Lemma getDailyQuote_in_quotes_witness :
  [mkQuote 1 "Plan the trade" "A" "discipline"; mkQuote 2 "Trade the plan" "B" "discipline"]
    <> []
  /\ exists q, In q [mkQuote 1 "Plan the trade" "A" "discipline";
                     mkQuote 2 "Trade the plan" "B" "discipline"]
               /\ getDailyQuote [mkQuote 1 "Plan the trade" "A" "discipline";
                                 mkQuote 2 "Trade the plan" "B" "discipline"]
                    "65f1a2b3c4d5e6f708192a3b" "2026-01-15"
                  = Some (mkDailyQuote (quote_id q) (quote_text q) (quote_author q)
                            (quote_category q) "2026-01-15").
Proof.
  split; [discriminate|].
  apply getDailyQuote_in_quotes. discriminate.
Defined.

(** ** Breathwork suggestion *)

Lemma Qlt_bool_true (a b : Q) : a < b -> Qlt_bool a b = true.
Proof.
  intros H. unfold Qlt_bool. destruct (Qle_bool b a) eqn:E; [|reflexivity].
  apply Qle_bool_iff in E. lra.
Qed.

Lemma calculateUrgency_spec (triggers : list TriggerType) (mentalBattery emotionalVolatility : Q) :
  (triggers = [] -> calculateUrgency triggers mentalBattery emotionalVolatility
                    = mkUrgency "none"%string 0)
  /\ (triggers <> [] ->
      ug_level (calculateUrgency triggers mentalBattery emotionalVolatility) <> "none"%string
      /\ (20 <= ug_score (calculateUrgency triggers mentalBattery emotionalVolatility) <= 100)%Z).
Proof.
  destruct triggers as [|x xs]; split; intros Ht; try reflexivity; try congruence.
  unfold calculateUrgency. cbv zeta.
  cbn [length]. rewrite Nat2Z.inj_succ.
  repeat match goal with |- context [if ?c then _ else _] => destruct c end;
    cbn [ug_level ug_score]; (split; [discriminate|lia]).
Qed.

(** X5: [shouldSuggestBreathwork] suggests a technique exactly when the
    urgency level is not ["none"]; a suggestion carries an urgency score in
    [[20, 100]] and a breathwork type, and no suggestion has score [0] and
    no type. *)
Theorem breathwork_suggestion_matches_urgency (now : Z) (mentalBattery emotionalVolatility : Q)
  (todayTrades : list Trade) (sessionStartBattery : Q) :
  let b := shouldSuggestBreathwork now mentalBattery emotionalVolatility todayTrades
             sessionStartBattery in
  (bw_shouldSuggest b = true <-> ug_level (bw_urgency b) <> "none"%string)
  /\ (bw_shouldSuggest b = true <-> bw_breathworkType b <> None)
  /\ (bw_shouldSuggest b = true -> (20 <= ug_score (bw_urgency b) <= 100)%Z)
  /\ (bw_shouldSuggest b = false -> ug_score (bw_urgency b) = 0%Z).
Proof.
  cbv zeta. unfold shouldSuggestBreathwork.
  cbn [bw_shouldSuggest bw_urgency bw_breathworkType].
  set (triggers := _ ++ _ ++ _ ++ _).
  destruct (calculateUrgency_spec triggers mentalBattery emotionalVolatility) as [H0 H1].
  destruct triggers as [|x xs].
  - rewrite (H0 eq_refl). cbn. repeat split; intros Hc; try discriminate; try congruence.
  - destruct (H1 ltac:(discriminate)) as [Hl Hs]. cbn [length Nat.eqb negb].
    repeat split; intros; try assumption; try discriminate; try reflexivity; lia.
Qed.

(** X6: with the session starting at the default battery of 100 (as
    [getBreathworkSuggestion] calls it), a mental battery below 40 always
    raises both the [low_battery] and the [battery_drop] triggers and an
    urgency of level ["high"] with score at least 75. *)
Theorem breathwork_low_battery_high_urgency (now : Z) (mentalBattery emotionalVolatility : Q)
  (todayTrades : list Trade) :
  mentalBattery < 40 ->
  let b := shouldSuggestBreathwork now mentalBattery emotionalVolatility todayTrades
             default_sessionStartBattery in
  In low_battery (bw_triggers b) /\ In battery_drop (bw_triggers b)
  /\ ug_level (bw_urgency b) = "high"%string /\ (75 <= ug_score (bw_urgency b))%Z.
Proof.
  intros H. cbv zeta. unfold shouldSuggestBreathwork.
  cbn [bw_triggers bw_urgency].
  rewrite (Qlt_bool_true _ _ H).
  assert (Hd : Qlt_bool 30 (calculateBatteryDrop default_sessionStartBattery mentalBattery) = true).
  { apply Qlt_bool_true. unfold calculateBatteryDrop, default_sessionStartBattery.
    pose proof (Q.le_max_r 0 (100 - mentalBattery)). lra. }
  rewrite Hd.
  destruct (Qlt_bool 70 emotionalVolatility);
    destruct (Nat.leb 3 (countImpulsiveTradesLastHour now todayTrades)); cbn [app];
    (split; [cbn [In]; tauto|split; [cbn [In]; tauto|]]);
    unfold calculateUrgency; cbv zeta; cbn [length filter is_severe];
    rewrite (Qlt_bool_true _ _ H);
    repeat match goal with |- context [if ?c then _ else _] => destruct c eqn:? end;
    repeat match goal with
           | Hb : (_ <=? _)%Z = true |- _ => apply Z.leb_le in Hb
           | Hb : (_ <=? _)%Z = false |- _ => apply Z.leb_gt in Hb
           | Hb : Nat.leb _ _ = false |- _ => vm_compute in Hb; discriminate Hb
           end;
    cbn [ug_level ug_score]; split; try reflexivity; try lia; exfalso; lia.
Qed.

Lemma breathwork_low_battery_high_urgency_witness :
  (25 < 40)
  /\ (let b := shouldSuggestBreathwork breath_now 25 10 breath_trades default_sessionStartBattery in
      In low_battery (bw_triggers b) /\ In battery_drop (bw_triggers b)
      /\ ug_level (bw_urgency b) = "high"%string /\ (75 <= ug_score (bw_urgency b))%Z).
Proof.
  split; [reflexivity|].
  apply breathwork_low_battery_high_urgency. reflexivity.
Defined.

(** ** State history *)

Lemma sr_confidence_range (trades : list Trade) (plan : option TradingPlan) :
  (10 <= sr_confidence (analyzePsychologicalState trades plan) <= 95)%Z.
Proof.
  destruct trades as [|t ts]; destruct plan as [p|];
    cbn [analyzePsychologicalState sr_confidence]; try lia.
  unfold calculateConfidence. cbv zeta.
  destruct (Z.of_nat _ <? 5)%Z; lia.
Qed.

Lemma pairs_snoc {A} (l : list A) (x d : A) :
  l <> [] -> pairs (l ++ [x]) = pairs l ++ [(last l d, x)].
Proof.
  intros Hne. induction l as [|a l IH]; [contradiction|].
  destruct l as [|b l]; [reflexivity|].
  transitivity ((a, b) :: pairs ((b :: l) ++ [x])); [reflexivity|].
  rewrite IH by discriminate. reflexivity.
Qed.

Lemma fold_left_inv {A B} (f : A -> B -> A) (P : A -> Prop) (l : list B) (a : A) :
  (forall a b, P a -> P (f a b)) -> P a -> P (fold_left f l a).
Proof.
  intros Hf. revert a. induction l as [|b l IH]; intros a Ha; [exact Ha|].
  apply IH. apply Hf. exact Ha.
Qed.

Lemma history_step_inv (sorted : list Trade) (p : TradingPlan) (limit : Z)
  (acc : LoopState) (i : nat) :
  history_inv limit acc -> history_inv limit (history_step sorted p limit acc i).
Proof.
  intros [Hlen [Hch [Hconf Hlast]]]. unfold history_step.
  destruct (Z.of_nat (length (ls_points acc)) <? limit)%Z eqn:Hlt;
    [|split; [|split; [|split]]; assumption].
  apply Z.ltb_lt in Hlt. cbv zeta.
  set (st := analyzePsychologicalState _ (Some p)).
  set (trade := nth i sorted _).
  set (np := mkPoint (entryTime trade) (sr_state st) (sr_confidence st) (getStateTrigger trade)
               (profitLoss trade) (riskPercentUsed trade)).
  destruct (match ls_last acc with
            | Some l => negb (state_eqb (sr_state l) (sr_state st))
                        || (15 <? Z.abs (sr_confidence l - sr_confidence st))%Z
            | None => true end) eqn:Hemit;
    [|split; [|split; [|split]]; assumption].
  split; [|split; [|split]]; cbn [ls_points ls_last].
  - cbn [length]. lia.
  - cbn [rev]. destruct (ls_points acc) as [|q pts] eqn:Ep; [reflexivity|].
    destruct (ls_last acc) as [l|]; [|contradiction].
    destruct Hlast as [Hs Hc].
    rewrite (pairs_snoc _ np q) by (cbn [rev]; intros H; apply app_eq_nil in H; destruct H as [_ H]; discriminate).
    rewrite forallb_app, Hch. cbn [rev]. rewrite last_last. cbn.
    unfold point_changed. rewrite Hs, Hc. subst np. cbn [hp_state hp_confidence].
    rewrite Hemit. reflexivity.
  - constructor; [apply sr_confidence_range | exact Hconf].
  - split; reflexivity.
Qed.

Lemma history_final_inv (trades : list Trade) (p : TradingPlan) (limit : Z) :
  let sorted := sort_by by_entry trades in
  history_inv limit (fold_left (history_step sorted p limit) (seq 0 (length sorted)) (mkLoop [] None)).
Proof.
  cbv zeta. apply fold_left_inv.
  - intros a b. apply history_step_inv.
  - unfold history_inv. cbn. repeat split; try constructor; lia.
Qed.

Lemma fold_add_range (l : list Z) (acc a b : Z) :
  Forall (fun s => a <= s <= b)%Z l ->
  (acc + a * Z.of_nat (length l) <= fold_left Z.add l acc <= acc + b * Z.of_nat (length l))%Z.
Proof.
  revert acc. induction l as [|x l IH]; intros acc H; cbn [fold_left length].
  - lia.
  - inversion H as [|? ? Hx Hl]; subst.
    specialize (IH (acc + x)%Z Hl). lia.
Qed.

Lemma mean_round_range (l : list Z) (a b : Z) :
  l <> [] -> Forall (fun s => a <= s <= b)%Z l ->
  (a <= js_round (qz (fold_left Z.add l 0%Z) / qlen l) <= b)%Z.
Proof.
  intros Hne H.
  destruct (fold_add_range l 0 a b H) as [H1 H2].
  assert (Hn : (0 < length l)%nat) by (destruct l; [contradiction|cbn; lia]).
  assert (Hq : 0 < qlen l) by (exact (qn_pos _ Hn)).
  split; [apply js_round_ge | apply js_round_le].
  - apply Qle_shift_div_l; [exact Hq|].
    unfold qz, qlen. rewrite <- inject_Z_mult, <- Zle_Qle. lia.
  - apply Qle_shift_div_r; [exact Hq|].
    unfold qz, qlen. rewrite <- inject_Z_mult, <- Zle_Qle. lia.
Qed.

(** X7: in the history returned by [analyzeStateHistory], every point
    differs from the one before it in state or by more than 15 points of
    confidence. *)
Theorem history_successive_points_change (trades : list Trade) (plan : option TradingPlan)
  (limit : Z) :
  forallb (fun pq => point_changed (fst pq) (snd pq))
    (pairs (hr_history (fst (analyzeStateHistory trades plan limit)))) = true.
Proof.
  destruct trades as [|t ts]; destruct plan as [p|]; try reflexivity.
  unfold analyzeStateHistory. cbn [fst hr_history].
  destruct (history_final_inv (t :: ts) p limit) as [Hlen [Hch _]].
  rewrite firstn_all2; [exact Hch|].
  rewrite length_rev. lia.
Qed.

(** X8: [analyzeStateHistory] returns at most [limit] points, its
    [totalChanges] is exactly the number of points returned, and its
    [averageConfidence] lies in [[10, 95]]. *)
Theorem history_summary_consistent (trades : list Trade) (plan : option TradingPlan) (limit : Z) :
  let r := fst (analyzeStateHistory trades plan limit) in
  (length (hr_history r) <= Z.to_nat limit)%nat
  /\ hs_totalChanges (hr_summary r) = length (hr_history r)
  /\ (10 <= hs_averageConfidence (hr_summary r) <= 95)%Z.
Proof.
  cbv zeta.
  destruct trades as [|t ts]; destruct plan as [p|];
    try (cbn; repeat split; lia).
  unfold analyzeStateHistory. cbn [fst hr_history hr_summary].
  destruct (history_final_inv (t :: ts) p limit) as [Hlen [_ [Hconf _]]].
  set (pts := ls_points _) in *.
  assert (Hl : (length (rev pts) <= Z.to_nat limit)%nat) by (rewrite length_rev; lia).
  rewrite firstn_all2 by exact Hl.
  split; [exact Hl|]. split; [reflexivity|].
  unfold history_summary. cbv zeta. cbn [hs_averageConfidence].
  destruct (map hp_confidence (rev pts)) as [|c cs] eqn:Ec; [lia|].
  rewrite <- Ec. apply mean_round_range; [rewrite Ec; discriminate|].
  apply Forall_map. apply Forall_rev. exact Hconf.
Qed.

(** ** Consistency trend: the daily metrics *)

Lemma insert_stable_length {A} (key : A -> Z) (x : A) (l : list A) :
  length (insert_stable key x l) = S (length l).
Proof.
  induction l as [|y l IH]; cbn [insert_stable]; [reflexivity|].
  destruct (key y <? key x)%Z; cbn [length]; [rewrite IH|]; reflexivity.
Qed.

Lemma sort_stable_length {A} (key : A -> Z) (l : list A) : length (sort_stable key l) = length l.
Proof.
  induction l as [|x l IH]; cbn [sort_stable]; [reflexivity|].
  rewrite insert_stable_length, IH. reflexivity.
Qed.

Lemma pairs_length {A} (l : list A) : length (pairs l) = (length l - 1)%nat.
Proof. unfold pairs. rewrite length_combine, length_tl. lia. Qed.

Lemma emotional_count_le (planRisk : Q) (trades : list Trade) :
  (length (filter (emotional_pair planRisk) (pairs (sort_stable by_entry trades)))
   <= length trades - 1)%nat.
Proof.
  rewrite <- (sort_stable_length by_entry trades), <- pairs_length.
  apply filter_length_le.
Qed.

Lemma clamp_0_100 (x : Q) : 0 <= Qmax 0 (Qmin 100 x) <= 100.
Proof.
  split; [apply Q.le_max_l|].
  apply Q.max_lub; [lra|apply Q.le_min_l].
Qed.

Lemma js_round_qz (z : Z) : js_round (qz z) = z.
Proof.
  apply Z.le_antisymm; [apply js_round_le | apply js_round_ge]; apply Qle_refl.
Qed.

Lemma emotionalFrequency_0_100 (trades : list Trade) (planRisk : Q) :
  0 <= calculateEmotionalTradeFrequency trades planRisk <= 100.
Proof.
  destruct trades as [|t ts]; [cbn; lra|].
  unfold calculateEmotionalTradeFrequency.
  pose proof (emotional_count_le planRisk (t :: ts)) as Hc.
  change (qlen (t :: ts)) with (qn (length (t :: ts))).
  set (c := length (filter _ _)) in *.
  set (n := length (t :: ts)) in *.
  assert (Hn : (0 < n)%nat) by (subst n; cbn; lia).
  destruct (ratio_unit (qn c) (qn n) (qn_nonneg c) (qn_le c n ltac:(lia)) (qn_pos n Hn)) as [H1 H2].
  generalize dependent (qn c / qn n). intros r H1 H2. lra.
Qed.

Lemma riskConsistency_0_100 (trades : list Trade) (planRisk : Q) :
  0 <= calculateRiskConsistency trades planRisk <= 100.
Proof.
  unfold calculateRiskConsistency.
  destruct (Nat.eqb _ 0 || Qeq_bool planRisk 0); [lra|].
  destruct (truthy_vals riskPercentUsed trades); [lra|].
  apply clamp_0_100.
Qed.

Lemma batteryStability_0_100 (trades : list Trade) (planRisk : Q) :
  0 <= calculateBatteryStability trades planRisk <= 100.
Proof.
  destruct trades as [|t ts]; [cbn; lra|]. apply clamp_0_100.
Qed.

Lemma qz_0_100 (z : Z) : (0 <= z <= 100)%Z -> 0 <= qz z <= 100.
Proof.
  intros [H1 H2]. unfold qz. split.
  - change 0 with (inject_Z 0). rewrite <- Zle_Qle. exact H1.
  - change 100 with (inject_Z 100). rewrite <- Zle_Qle. exact H2.
Qed.

Lemma calculateDailyScore_some (trades : list Trade) (plan : option TradingPlan) (d : DailyScore) :
  calculateDailyScore trades plan = Some d ->
  ds_tradeCount d = length trades
  /\ Forall (fun v => 0 <= v <= 100)%Z
       [ds_score d; cm_avgPlanCompliance (ds_metrics d); cm_behavioralVolatility (ds_metrics d);
        cm_riskConsistency (ds_metrics d); cm_emotionalTradeFrequency (ds_metrics d);
        cm_batteryStability (ds_metrics d)].
Proof.
  destruct trades as [|t ts]; [discriminate|].
  unfold calculateDailyScore. cbv zeta. intros E. injection E as <-.
  cbn [ds_tradeCount ds_score ds_metrics cm_avgPlanCompliance cm_behavioralVolatility
       cm_riskConsistency cm_emotionalTradeFrequency cm_batteryStability].
  split; [reflexivity|].
  repeat apply Forall_cons; try apply Forall_nil.
  - apply js_round_0_100, clamp_0_100.
  - apply js_round_0_100, qz_0_100. exact (calculatePlanControl_bounds (t :: ts) plan).
  - apply js_round_0_100, qz_0_100.
    cbn [calculatePsychologicalRadar emotionalVolatility].
    apply calculateEmotionalVolatility_bounds.
  - apply js_round_0_100. exact (riskConsistency_0_100 (t :: ts) (planRisk_or1 plan)).
  - apply js_round_0_100. exact (emotionalFrequency_0_100 (t :: ts) (planRisk_or1 plan)).
  - apply js_round_0_100. exact (batteryStability_0_100 (t :: ts) (planRisk_or1 plan)).
Qed.
(** X9: [calculateDailyScore] returns [null] exactly for an empty day;
    otherwise its [tradeCount] is the number of trades and the score and
    each of its five metrics lie in [[0, 100]]. *)
Theorem dailyScore_null_iff_empty_and_ranges (trades : list Trade) (plan : option TradingPlan) :
  (calculateDailyScore trades plan = None <-> trades = [])
  /\ (forall d, calculateDailyScore trades plan = Some d ->
       ds_tradeCount d = length trades
       /\ Forall (fun v => 0 <= v <= 100)%Z
            [ds_score d; cm_avgPlanCompliance (ds_metrics d);
             cm_behavioralVolatility (ds_metrics d); cm_riskConsistency (ds_metrics d);
             cm_emotionalTradeFrequency (ds_metrics d); cm_batteryStability (ds_metrics d)]).
Proof.
  split; [|exact (calculateDailyScore_some trades plan)].
  destruct trades as [|t ts]; [split; reflexivity|].
  split; discriminate.
Qed.


(** ** Consistency trend: grouping and ordering *)

Lemma group_push_keys_in (k k' : Z) (t : Trade) (g : list (Z * list Trade)) :
  In k' (map fst (group_push k t g)) <-> k' = k \/ In k' (map fst g).
Proof.
  induction g as [|[k0 ts] g IH]; cbn [group_push map fst In].
  - intuition congruence.
  - destruct (k0 =? k)%Z eqn:E; cbn [map fst In].
    + apply Z.eqb_eq in E. subst k0. intuition congruence.
    + rewrite IH. intuition congruence.
Qed.

Lemma group_push_nodup (k : Z) (t : Trade) (g : list (Z * list Trade)) :
  NoDup (map fst g) -> NoDup (map fst (group_push k t g)).
Proof.
  induction g as [|[k0 ts] g IH]; cbn [group_push map fst]; intros H.
  - constructor; [intros []|constructor].
  - inversion H as [|? ? Hn Hd]; subst.
    destruct (k0 =? k)%Z eqn:E; cbn [map fst].
    + constructor; assumption.
    + constructor; [|apply IH; exact Hd].
      rewrite group_push_keys_in. apply Z.eqb_neq in E. intuition.
Qed.

Lemma group_push_nonempty (k : Z) (t : Trade) (g : list (Z * list Trade)) :
  Forall (fun kv => snd kv <> []) g -> Forall (fun kv => snd kv <> []) (group_push k t g).
Proof.
  induction g as [|[k0 ts] g IH]; cbn [group_push]; intros H.
  - constructor; [discriminate|constructor].
  - inversion H as [|? ? Hn Hf]; subst.
    destruct (k0 =? k)%Z.
    + constructor; [cbn; intros Ha; apply app_eq_nil in Ha; destruct Ha as [_ Ha]; discriminate
                   | exact Hf].
    + constructor; [exact Hn | apply IH; exact Hf].
Qed.

Lemma group_push_sum (k : Z) (t : Trade) (g : list (Z * list Trade)) :
  list_sum (map (fun kv => length (snd kv)) (group_push k t g))
  = S (list_sum (map (fun kv => length (snd kv)) g)).
Proof.
  induction g as [|[k0 ts] g IH]; cbn [group_push]; [reflexivity|].
  destruct (k0 =? k)%Z; cbn [map list_sum fold_right snd].
  - rewrite length_app. cbn [length]. lia.
  - change (list_sum (map (fun kv => length (snd kv)) (group_push k t g)))
      with (list_sum (map (fun kv : Z * list Trade => length (snd kv)) (group_push k t g))).
    unfold list_sum in IH. rewrite IH. lia.
Qed.

Lemma groupTradesByDay_inv (trades : list Trade) :
  let g := groupTradesByDay trades in
  NoDup (map fst g) /\ Forall (fun kv => snd kv <> []) g
  /\ list_sum (map (fun kv => length (snd kv)) g) = length trades
  /\ (forall d, In d (map fst g) <-> exists t, In t trades /\ dayKey (entryTime t) = d).
Proof.
  cbv zeta. unfold groupTradesByDay.
  enough (H : forall g0, NoDup (map fst g0) -> Forall (fun kv => snd kv <> []) g0 ->
    let g := fold_left (fun g t => group_push (dayKey (entryTime t)) t g) trades g0 in
    NoDup (map fst g) /\ Forall (fun kv => snd kv <> []) g
    /\ list_sum (map (fun kv => length (snd kv)) g)
       = (list_sum (map (fun kv => length (snd kv)) g0) + length trades)%nat
    /\ (forall d, In d (map fst g) <->
                  In d (map fst g0) \/ exists t, In t trades /\ dayKey (entryTime t) = d)).
  { destruct (H [] (NoDup_nil _) (Forall_nil _)) as [H1 [H2 [H3 H4]]].
    split; [exact H1|]. split; [exact H2|]. split; [exact H3|].
    intros d. rewrite H4. cbn [map In]. tauto. }
  induction trades as [|t ts IH]; intros g0 Hn Hf; cbv zeta; cbn [fold_left length].
  - split; [exact Hn|]. split; [exact Hf|]. split; [lia|].
    intros d. split; [tauto|]. intros [H|[x [[] _]]]. exact H.
  - destruct (IH (group_push (dayKey (entryTime t)) t g0)
                (group_push_nodup _ _ _ Hn) (group_push_nonempty _ _ _ Hf))
      as [H1 [H2 [H3 H4]]].
    split; [exact H1|]. split; [exact H2|]. split.
    + rewrite H3, group_push_sum. lia.
    + intros d. rewrite H4, group_push_keys_in. split.
      * intros [[->|Hd]|[x [Hx Ex]]].
        -- right. exists t. split; [left|]; reflexivity.
        -- left. exact Hd.
        -- right. exists x. split; [right|]; assumption.
      * intros [Hd|[x [[<-|Hx] Ex]]].
        -- left. right. exact Hd.
        -- left. left. symmetry. exact Ex.
        -- right. exists x. split; assumption.
Qed.

Lemma group_lookup_nonempty (g : list (Z * list Trade)) (d : Z) :
  Forall (fun kv => snd kv <> []) g -> In d (map fst g) -> group_lookup d g <> [].
Proof.
  intros Hf Hd. unfold group_lookup.
  destruct (find (fun kv => (fst kv =? d)%Z) g) as [kv|] eqn:E.
  - apply find_some in E. destruct E as [Hin _].
    rewrite Forall_forall in Hf. exact (Hf kv Hin).
  - exfalso. apply in_map_iff in Hd. destruct Hd as [kv [Hk Hin]].
    pose proof (find_none _ _ E kv Hin) as Hx. cbn beta in Hx.
    rewrite Hk, Z.eqb_refl in Hx. discriminate.
Qed.

Lemma group_lookup_sum (g : list (Z * list Trade)) :
  NoDup (map fst g) ->
  list_sum (map (fun d => length (group_lookup d g)) (map fst g))
  = list_sum (map (fun kv => length (snd kv)) g).
Proof.
  induction g as [|[k ts] g IH]; intros Hn; [reflexivity|].
  inversion Hn as [|? ? Hk Hd]; subst.
  cbn [map fst snd].
  change (list_sum (?x :: ?l)) with (x + list_sum l)%nat.
  f_equal.
  - unfold group_lookup. cbn. rewrite Z.eqb_refl. reflexivity.
  - rewrite <- (IH Hd). f_equal. apply map_ext_in. intros d Hdin.
    unfold group_lookup. cbn [find fst].
    destruct (k =? d)%Z eqn:E; [|reflexivity].
    apply Z.eqb_eq in E. subst d. contradiction.
Qed.

Lemma insert_stable_perm {A} (key : A -> Z) (x : A) (l : list A) :
  Permutation (x :: l) (insert_stable key x l).
Proof.
  induction l as [|y l IH]; cbn [insert_stable]; [reflexivity|].
  destruct (key y <? key x)%Z; [|reflexivity].
  transitivity (y :: x :: l); [apply perm_swap|]. apply perm_skip. exact IH.
Qed.

Lemma sort_stable_perm {A} (key : A -> Z) (l : list A) : Permutation l (sort_stable key l).
Proof.
  induction l as [|x l IH]; cbn [sort_stable]; [reflexivity|].
  transitivity (x :: sort_stable key l); [apply perm_skip; exact IH|].
  apply insert_stable_perm.
Qed.

Lemma insert_stable_sorted {A} (key : A -> Z) (x : A) (l : list A) :
  Sorted (fun a b => key a <= key b)%Z l ->
  Sorted (fun a b => key a <= key b)%Z (insert_stable key x l).
Proof.
  induction 1 as [|y l Hs IH Hhd]; cbn [insert_stable].
  - repeat constructor.
  - destruct (key y <? key x)%Z eqn:E.
    + apply Z.ltb_lt in E. constructor; [exact IH|].
      destruct l as [|z l]; cbn [insert_stable].
      * constructor. lia.
      * inversion Hhd; subst.
        destruct (key z <? key x)%Z; constructor; [assumption | lia].
    + apply Z.ltb_ge in E. constructor; [constructor; assumption|].
      constructor. lia.
Qed.

Lemma sort_stable_sorted {A} (key : A -> Z) (l : list A) :
  Sorted (fun a b => key a <= key b)%Z (sort_stable key l).
Proof.
  induction l as [|x l IH]; cbn [sort_stable]; [constructor|].
  apply insert_stable_sorted. exact IH.
Qed.

Lemma sorted_nodup_lt (l : list Z) : Sorted Z.le l -> NoDup l -> Sorted Z.lt l.
Proof.
  induction 1 as [|a l Hs IH Hhd]; intros Hn; [constructor|].
  inversion Hn as [|? ? Ha Hd]; subst.
  constructor; [apply IH; exact Hd|].
  destruct l as [|b l]; [constructor|].
  inversion Hhd; subst. constructor.
  assert (a <> b) by (intros ->; apply Ha; left; reflexivity). lia.
Qed.

Lemma list_sum_perm (l l' : list nat) : Permutation l l' -> list_sum l = list_sum l'.
Proof.
  induction 1; unfold list_sum in *; cbn [fold_right] in *; lia.
Qed.

Lemma trend_points (g : list (Z * list Trade)) (plan : option TradingPlan) (D : list Z) :
  (forall d, In d D -> group_lookup d g <> []) ->
  let tr := flat_map (fun day =>
                match calculateDailyScore (group_lookup day g) plan with
                | Some d => [mkTrendPoint day (ds_score d) (ds_metrics d) (ds_tradeCount d)]
                | None => []
                end) D in
  map tp_date tr = D
  /\ map tp_tradeCount tr = map (fun d => length (group_lookup d g)) D
  /\ Forall (fun p => 0 <= tp_score p <= 100)%Z tr.
Proof.
  intros HD. cbv zeta. induction D as [|d D IH]; [repeat constructor|].
  cbn [flat_map].
  assert (Hd : group_lookup d g <> []) by (apply HD; left; reflexivity).
  destruct (IH (fun d' H => HD d' (or_intror H))) as [I1 [I2 I3]].
  destruct (calculateDailyScore (group_lookup d g) plan) as [x|] eqn:E.
  - destruct (calculateDailyScore_some _ _ _ E) as [Hc Hr].
    cbn [app map tp_date tp_tradeCount]. rewrite I1, I2, Hc.
    split; [reflexivity|]. split; [reflexivity|].
    constructor; [exact (Forall_inv Hr) | exact I3].
  - exfalso. destruct (group_lookup d g); [apply Hd; reflexivity | discriminate E].
Qed.

Lemma trend_of_filtered (F : list Trade) (plan : option TradingPlan) :
  let g := groupTradesByDay F in
  let tr := flat_map (fun day =>
                match calculateDailyScore (group_lookup day g) plan with
                | Some d => [mkTrendPoint day (ds_score d) (ds_metrics d) (ds_tradeCount d)]
                | None => []
                end) (sort_stable (fun d => d) (map fst g)) in
  list_sum (map tp_tradeCount tr) = length F
  /\ Sorted Z.lt (map tp_date tr)
  /\ (forall d, In d (map tp_date tr) <-> exists t, In t F /\ dayKey (entryTime t) = d)
  /\ Forall (fun p => 0 <= tp_score p <= 100)%Z tr.
Proof.
  cbv zeta.
  destruct (groupTradesByDay_inv F) as [Hn [Hf [Hsum Hkeys]]]. cbv zeta in *.
  pose proof (sort_stable_perm (fun d : Z => d) (map fst (groupTradesByDay F))) as Hp.
  destruct (trend_points (groupTradesByDay F) plan
              (sort_stable (fun d => d) (map fst (groupTradesByDay F))))
    as [H1 [H2 H3]].
  { intros d Hd. apply group_lookup_nonempty; [exact Hf|].
    exact (Permutation_in _ (Permutation_sym Hp) Hd). }
  split; [|split; [|split]].
  - rewrite H2, <- Hsum, <- (group_lookup_sum _ Hn).
    symmetry. apply list_sum_perm. apply Permutation_map. exact Hp.
  - rewrite H1. apply sorted_nodup_lt.
    + exact (sort_stable_sorted (fun d : Z => d) _).
    + exact (Permutation_NoDup Hp Hn).
  - intros d. rewrite H1, <- Hkeys. split; intros Hd.
    + exact (Permutation_in _ (Permutation_sym Hp) Hd).
    + exact (Permutation_in _ Hp Hd).
  - exact H3.
Qed.

Lemma earliest_entry_le (l : list Trade) (m : Z) :
  (fold_left (fun m t => if (entryTime t <? m)%Z then entryTime t else m) l m <= m)%Z
  /\ forall t, In t l ->
       (fold_left (fun m t => if (entryTime t <? m)%Z then entryTime t else m) l m <= entryTime t)%Z.
Proof.
  revert m. induction l as [|x l IH]; intros m; cbn [fold_left In].
  - split; [lia | intros _ []].
  - destruct (IH (if (entryTime x <? m)%Z then entryTime x else m)) as [I1 I2].
    assert (Hx : ((if (entryTime x <? m)%Z then entryTime x else m) <= m)%Z
                 /\ ((if (entryTime x <? m)%Z then entryTime x else m) <= entryTime x)%Z)
      by (destruct (entryTime x <? m)%Z eqn:E; [apply Z.ltb_lt in E | apply Z.ltb_ge in E]; lia).
    split; [lia|]. intros t [<-|Ht]; [lia | exact (I2 t Ht)].
Qed.

Lemma filter_all_true {A} (f : A -> bool) (l : list A) :
  (forall x, In x l -> f x = true) -> filter f l = l.
Proof.
  induction l as [|x l IH]; intros H; cbn [filter]; [reflexivity|].
  rewrite (H x (or_introl eq_refl)). f_equal. apply IH. intros y Hy. apply H. right. exact Hy.
Qed.

(** X12: the trade counts of the trend's points add up to the number of trades
    whose entry is at or after the start date, so no trade in the range is
    lost or counted twice; with ['all'] every trade is counted. *)
Theorem consistencyTrend_trade_counts (now : Z) (trades : list Trade)
  (plan : option TradingPlan) (daysOption : DaysOption) :
  list_sum (map tp_tradeCount (ct_trend (calculateConsistencyTrend now trades plan daysOption)))
  = length (filter (fun t => (trend_startDate now trades daysOption <=? entryTime t)%Z) trades)
  /\ (daysOption = days_all ->
      list_sum (map tp_tradeCount (ct_trend (calculateConsistencyTrend now trades plan daysOption)))
      = length trades).
Proof.
  destruct trades as [|t ts]; [split; reflexivity|].
  assert (Hc : list_sum (map tp_tradeCount
                 (ct_trend (calculateConsistencyTrend now (t :: ts) plan daysOption)))
               = length (filter (fun x => (trend_startDate now (t :: ts) daysOption
                                            <=? entryTime x)%Z) (t :: ts)))
    by exact (proj1 (trend_of_filtered
                (filter (fun x => (trend_startDate now (t :: ts) daysOption
                                     <=? entryTime x)%Z) (t :: ts)) plan)).
  split; [exact Hc|]. intros ->. rewrite Hc, filter_all_true; [reflexivity|].
  intros x Hx. apply Z.leb_le. unfold trend_startDate.
  exact (proj2 (earliest_entry_le (t :: ts) now) x Hx).
Qed.

(** X13: the trend's dates are strictly increasing, and a day appears in the
    trend exactly when some trade at or after the start date was entered on
    that (UTC) day. *)
Theorem consistencyTrend_days_sorted (now : Z) (trades : list Trade)
  (plan : option TradingPlan) (daysOption : DaysOption) :
  let tr := ct_trend (calculateConsistencyTrend now trades plan daysOption) in
  Sorted Z.lt (map tp_date tr)
  /\ forall d, In d (map tp_date tr) <->
       exists t, In t trades /\ (trend_startDate now trades daysOption <= entryTime t)%Z
                 /\ dayKey (entryTime t) = d.
Proof.
  cbv zeta. destruct trades as [|t ts].
  - split; [constructor|]. intros d. split; [intros []|intros [x [[] _]]].
  - destruct (trend_of_filtered
                (filter (fun x => (trend_startDate now (t :: ts) daysOption
                                     <=? entryTime x)%Z) (t :: ts)) plan)
      as [_ [Hs [Hd _]]].
    split; [exact Hs|]. intros d. rewrite Hd. split.
    + intros [x [Hx Ex]]. apply filter_In in Hx. destruct Hx as [Hx Hle].
      apply Z.leb_le in Hle. exists x. split; [exact Hx|]. split; assumption.
    + intros [x [Hx [Hle Ex]]]. exists x. split; [|exact Ex].
      apply filter_In. split; [exact Hx|]. apply Z.leb_le. exact Hle.
Qed.

(** X14: every daily score of the trend and the summary's average score lie in
    [0, 100], and with fewer than three days of data the direction is
    ['stable']. *)
Theorem consistencyTrend_summary_ranges (now : Z) (trades : list Trade)
  (plan : option TradingPlan) (daysOption : DaysOption) :
  let r := calculateConsistencyTrend now trades plan daysOption in
  Forall (fun p => 0 <= tp_score p <= 100)%Z (ct_trend r)
  /\ (0 <= ts_averageScore (ct_summary r) <= 100)%Z
  /\ ((length (ct_trend r) < 3)%nat -> ts_trendDirection (ct_summary r) = "stable"%string).
Proof.
  cbv zeta. destruct trades as [|t ts].
  - split; [constructor|]. split; [cbn; lia | reflexivity].
  - destruct (trend_of_filtered
                (filter (fun x => (trend_startDate now (t :: ts) daysOption
                                     <=? entryTime x)%Z) (t :: ts)) plan)
      as [_ [_ [_ Hs]]].
    cbv zeta in Hs. revert Hs.
    unfold calculateConsistencyTrend. cbv beta iota zeta.
    cbn [ct_trend ct_summary ts_averageScore ts_trendDirection].
    match goal with |- context [flat_map ?f ?D] => generalize (flat_map f D) as tr end.
    intros tr Hs. split; [exact Hs|]. split.
    + destruct (map tp_score tr) as [|s ss] eqn:E; [lia|].
      unfold mean_z. rewrite <- E. apply mean_round_range.
      * rewrite E. discriminate.
      * apply Forall_map. exact Hs.
    + intros Hl. rewrite length_map.
      destruct (Nat.leb 3 (length tr)) eqn:E; [|reflexivity].
      apply Nat.leb_le in E. lia.
Qed.

(** ** Breathwork: impulsive trades in the last hour *)

Lemma impulsive_pairs_bound (l : list Trade) : (impulsive_pairs l <= length l - 1)%nat.
Proof.
  unfold impulsive_pairs.
  etransitivity; [apply filter_length_le|].
  destruct l as [|x l]; [cbn; lia|].
  cbn [tl]. rewrite length_combine. cbn [length]. lia.
Qed.

Lemma countImpulsive_bound (now : Z) (trades : list Trade) :
  (countImpulsiveTradesLastHour now trades
   <= length (filter (fun t => (now - 3600000 <=? entryTime t)%Z) trades) - 1)%nat.
Proof.
  unfold countImpulsiveTradesLastHour.
  destruct (Nat.ltb (length trades) 2); [lia|]. cbv zeta.
  destruct (Nat.ltb _ 2); [lia|].
  etransitivity; [apply impulsive_pairs_bound|]. rewrite sort_by_length. lia.
Qed.

(** X15: the count of impulsive re-entries in the last hour is below the number
    of trades entered at or after one hour before [now]; so the
    breathwork trigger [impulsive_trades] (three or more re-entries) only
    fires when at least four trades were entered in that hour. *)
Theorem impulsive_trigger_needs_four_recent_trades (now : Z) (trades : list Trade) :
  (countImpulsiveTradesLastHour now trades
   <= length (filter (fun t => (now - 3600000 <=? entryTime t)%Z) trades) - 1)%nat
  /\ forall (mentalBattery emotionalVolatility sessionStartBattery : Q),
       In impulsive_trades
          (bw_triggers (shouldSuggestBreathwork now mentalBattery emotionalVolatility trades
                          sessionStartBattery)) ->
       (4 <= length (filter (fun t => (now - 3600000 <=? entryTime t)%Z) trades))%nat.
Proof.
  pose proof (countImpulsive_bound now trades) as Hb.
  split; [exact Hb|].
  intros mb ev ssb H. unfold shouldSuggestBreathwork in H. cbv zeta in H.
  cbn [bw_triggers] in H.
  destruct (Nat.leb 3 (countImpulsiveTradesLastHour now trades)) eqn:E.
  - apply Nat.leb_le in E. lia.
  - exfalso.
    destruct (Qlt_bool 70 ev), (Qlt_bool mb 40), (Qlt_bool 30 (calculateBatteryDrop ssb mb));
      cbn in H; intuition discriminate.
Qed.

(** ** utils/computeMedian.js *)

Lemma computeMedian_bounds (l : list Q) (a b : Q) :
  l <> [] -> Forall (fun x => a <= x <= b) l -> a <= computeMedian l <= b.
Proof.
  intros Hne Hf. rewrite Forall_forall in Hf.
  destruct l as [|x0 l']; [contradiction|].
  unfold computeMedian. cbv zeta.
  set (n := length (x0 :: l')).
  assert (Hn : (1 <= n)%nat) by (subst n; cbn; lia).
  assert (Hmid : (Nat.div n 2 < n)%nat) by (apply Nat.div_lt; lia).
  destruct (Nat.odd n) eqn:Ho.
  - apply Hf. apply nth_In. exact Hmid.
  - assert (Hn2 : (2 <= n)%nat).
    { destruct l' as [|x1 l'']; [subst n; cbn in Ho; discriminate|]. subst n; cbn; lia. }
    assert (Hm1 : (1 <= Nat.div n 2)%nat)
      by (apply (Nat.div_le_lower_bound n 2 1); lia).
    pose proof (Hf _ (nth_In (x0 :: l') 0 (Hmid : (Nat.div n 2 < length (x0 :: l'))%nat))) as Hy.
    assert (Hlt : (Nat.div n 2 - 1 < length (x0 :: l'))%nat) by (fold n; lia).
    pose proof (Hf _ (nth_In (x0 :: l') 0 Hlt)) as Hx.
    destruct Hx as [Hx1 Hx2]. destruct Hy as [Hy1 Hy2].
    split; [apply Qle_shift_div_l | apply Qle_shift_div_r];
      [reflexivity | lra | reflexivity | lra].
Qed.

(** X16: for a nonempty list whose elements all lie in [[a, b]], [computeMedian]
    (the middle element, or the mean of the two middle ones) lies in
    [[a, b]] too. *)
Theorem computeMedian_within_bounds (l : list Q) (a b : Q) :
  l <> [] -> Forall (fun x => a <= x <= b) l -> a <= computeMedian l <= b.
Proof. exact (computeMedian_bounds l a b). Qed.

Lemma computeMedian_within_bounds_witness :
  [1; 2; 3; 4] <> [] /\ Forall (fun x => 0 <= x <= 5) [1; 2; 3; 4]
  /\ 0 <= computeMedian [1; 2; 3; 4] <= 5.
Proof.
  assert (Hne : [1; 2; 3; 4] <> []) by discriminate.
  assert (Hf : Forall (fun x => 0 <= x <= 5) [1; 2; 3; 4]).
  { repeat apply Forall_cons; try apply Forall_nil; split; unfold Qle; cbn; lia. }
  split; [exact Hne|]. split; [exact Hf|].
  exact (computeMedian_within_bounds _ 0 5 Hne Hf).
Defined.

(** ** Mental battery: caps of the cluster and pause counts *)

Lemma clusters_from_cap (fuel c : nat) (l : list Trade) :
  (c <= 1)%nat -> (clusters_from fuel c l <= 2)%nat.
Proof.
  revert c l. induction fuel as [|f IH]; intros c l Hc; [destruct l; cbn; lia|].
  destruct l as [|t l']; cbn [clusters_from]; [lia|].
  destruct (Nat.leb 3 (S (count_within (entryTime t) l'))); [|apply IH; exact Hc].
  destruct (Nat.leb 2 (S c)) eqn:E; [lia|].
  apply IH. apply Nat.leb_gt in E. lia.
Qed.

Lemma pauses_from_cap (p : nat) (ps : list (Trade * Trade)) :
  (p <= 2)%nat -> (pauses_from p ps <= 3)%nat.
Proof.
  revert p. induction ps as [|[prev curr] ps IH]; intros p Hp; cbn [pauses_from]; [lia|].
  destruct (7200000 <=? entryTime curr - exitTime prev)%Z; [|apply IH; exact Hp].
  destruct (Nat.leb 3 (S p)) eqn:E; [lia|].
  apply IH. apply Nat.leb_gt in E. lia.
Qed.

(** X17: [detectClusters] never reports more than two clusters and
    [detectDisciplinedPauses] never more than three pauses, so clusters
    drain at most 16 points of the battery and pauses recharge at most 15. *)
Theorem clusters_and_pauses_capped (trades : list Trade) :
  (detectClusters trades <= 2)%nat /\ (detectDisciplinedPauses trades <= 3)%nat.
Proof.
  split.
  - unfold detectClusters. destruct (Nat.ltb (length trades) 3); [lia|].
    apply clusters_from_cap. lia.
  - unfold detectDisciplinedPauses. destruct (Nat.ltb (length trades) 2); [lia|].
    apply pauses_from_cap. lia.
Qed.

(** X18: with a single trade today there is no re-entry, cluster, pause or
    volatility; only an oversized trade (-10) and a large loss (-20) can
    drain the battery, so it stays in [[70, 100]]. *)
Theorem mentalBattery_single_trade (t : Trade) (plan : option TradingPlan)
  (planControlPercent : Z) :
  (70 <= calculateMentalBattery [t] plan planControlPercent <= 100)%Z.
Proof.
  unfold calculateMentalBattery. cbv zeta.
  change (sort_by by_entry [t]) with [t].
  replace (impulsive_pairs [t]) with 0%nat by reflexivity.
  replace (detectClusters [t]) with 0%nat by reflexivity.
  replace (hasEmotionalVolatility [t]) with false by reflexivity.
  replace (detectDisciplinedPauses [t]) with 0%nat by reflexivity.
  cbn [filter].
  destruct (isOversizedTrade t (planRisk_or1 plan)), (isLargeLoss t (planRisk_or1 plan)),
    (80 <=? planControlPercent)%Z, (hasStableRiskUsage [t] (planRisk_or1 plan));
    cbn [length Nat.ltb Nat.leb]; lia.
Qed.

(** ** Heatmap insight: the behaviour-gap warning *)

Lemma in_last_cons {A} (a : A) (l : list A) : In (last l a) (a :: l).
Proof.
  induction l as [|x l IH]; [left; reflexivity|].
  destruct l as [|y l]; [right; left; reflexivity|].
  change (last (x :: y :: l) a) with (last (y :: l) a).
  destruct IH as [H|H]; [left; exact H | right; right; exact H].
Qed.

Lemma sort_stable_hd_last {A} (key : A -> Z) (a : A) (l : list A) :
  In (hd a (sort_stable key l)) (a :: l) /\ In (last (sort_stable key l) a) (a :: l).
Proof.
  pose proof (Permutation_sym (sort_stable_perm key l)) as Hp.
  assert (Hs : forall x, In x (a :: sort_stable key l) -> In x (a :: l)).
  { intros x [<-|Hx]; [left; reflexivity | right; exact (Permutation_in _ Hp Hx)]. }
  split; apply Hs.
  - destruct (sort_stable key l) as [|y s]; [left; reflexivity | right; left; reflexivity].
  - apply in_last_cons.
Qed.

Lemma active_window_mem (windows : list HeatmapWindow) (x : HeatmapWindow) :
  In x (filter (fun w => is_some (hw_score w) && Nat.ltb 0 (hw_tradeCount w)) windows) ->
  In x windows /\ hw_score x = Some (hw_scoreZ x) /\ (0 < hw_tradeCount x)%nat.
Proof.
  intros Hx. apply filter_In in Hx. destruct Hx as [Hin Hb].
  apply andb_prop in Hb. destruct Hb as [Hs Hc]. apply Nat.ltb_lt in Hc.
  split; [exact Hin|]. split; [|exact Hc].
  unfold hw_scoreZ. destruct (hw_score x); [reflexivity | discriminate Hs].
Qed.

(** X19: when [deriveHeatmapInsight] warns of a behaviour gap, the windows
    contain an active window scored below 40 and an active window scored
    above 70. *)
Theorem behavior_gap_has_weak_and_strong_windows (windows : list HeatmapWindow) :
  hi_case (deriveHeatmapInsight windows) = behavior_gap ->
  exists w1 w2 s1 s2,
    In w1 windows /\ hw_score w1 = Some s1 /\ (s1 < 40)%Z /\ (0 < hw_tradeCount w1)%nat
    /\ In w2 windows /\ hw_score w2 = Some s2 /\ (70 < s2)%Z /\ (0 < hw_tradeCount w2)%nat.
Proof.
  intros H. unfold deriveHeatmapInsight in H. cbv zeta in H.
  destruct (filter (fun w => is_some (hw_score w) && Nat.ltb 0 (hw_tradeCount w)) windows)
    as [|a rest] eqn:Ea; [discriminate H|].
  repeat match type of H with context [if ?c then _ else _] => destruct c eqn:? end;
    try discriminate H.
  match goal with Hg : (_ <? 40)%Z && (70 <? _)%Z = true |- _ =>
    apply andb_prop in Hg; destruct Hg as [Hw Hb] end.
  apply Z.ltb_lt in Hw, Hb.
  destruct (sort_stable_hd_last (fun w => (- hw_scoreZ w)%Z) a (a :: rest)) as [Hh Hl].
  assert (Hsub : forall x, In x (a :: a :: rest) -> In x (a :: rest))
    by (intros x [<-|Hx]; [left; reflexivity | exact Hx]).
  assert (Hm : forall x, In x (a :: rest) ->
                In x windows /\ hw_score x = Some (hw_scoreZ x) /\ (0 < hw_tradeCount x)%nat)
    by (intros x Hx; rewrite <- Ea in Hx; exact (active_window_mem _ _ Hx)).
  apply Hsub in Hh, Hl.
  destruct (Hm _ Hl) as [Hl1 [Hl2 Hl3]].
  destruct (Hm _ Hh) as [Hh1 [Hh2 Hh3]].
  eexists _, _, _, _.
  split; [exact Hl1|]. split; [exact Hl2|]. split; [exact Hw|]. split; [exact Hl3|].
  split; [exact Hh1|]. split; [exact Hh2|]. split; [exact Hb|]. exact Hh3.
Qed.

Lemma behavior_gap_has_weak_and_strong_windows_witness :
  hi_case (deriveHeatmapInsight gap_windows) = behavior_gap
  /\ exists w1 w2 s1 s2,
    In w1 gap_windows /\ hw_score w1 = Some s1 /\ (s1 < 40)%Z /\ (0 < hw_tradeCount w1)%nat
    /\ In w2 gap_windows /\ hw_score w2 = Some s2 /\ (70 < s2)%Z /\ (0 < hw_tradeCount w2)%nat.
Proof.
  assert (H : hi_case (deriveHeatmapInsight gap_windows) = behavior_gap)
    by (vm_compute; reflexivity).
  split; [exact H|].
  exact (behavior_gap_has_weak_and_strong_windows gap_windows H).
Defined.

(** ** services/analysis/metrics.js: day and basic metrics *)

Lemma bump_length (k : Z) (m : list (Z * nat)) : (length (bump k m) <= S (length m))%nat.
Proof.
  induction m as [|[k0 c] m IH]; cbn [bump length]; [lia|].
  destruct (k0 =? k)%Z; cbn [length]; lia.
Qed.

Lemma day_tables_length (plan : TradingPlan) (trades : list Trade)
  (byDay : list (Z * nat)) (outside : list Z) :
  (length (fst (fold_left (day_step plan) trades (byDay, outside)))
   <= length byDay + length trades)%nat.
Proof.
  revert byDay outside.
  induction trades as [|t ts IH]; intros byDay outside; cbn [fold_left].
  - cbn [fst length]. lia.
  - unfold day_step at 2.
    etransitivity; [apply IH|].
    pose proof (bump_length (dayKey (entryTime t)) byDay). cbn [length]. lia.
Qed.

(** X20: [calculateDayMetrics] never reports more days over the trade cap, nor
    more days with an outside-session trade, than days with trades; and
    [daysWithTrades] is at least 1 and at most the number of trades (or 1
    without trades). *)
Theorem dayMetrics_counts_bounded (trades : list Trade) (plan : TradingPlan) :
  let d := calculateDayMetrics trades plan in
  (dm_exceededDays d <= dm_daysWithTrades d)%nat
  /\ (dm_outsideSessionDays d <= dm_daysWithTrades d)%nat
  /\ (1 <= dm_daysWithTrades d <= Nat.max 1 (length trades))%nat.
Proof.
  cbv zeta. destruct (dayMetrics_bounds trades plan) as [Ho He].
  split; [exact He|]. split; [exact Ho|].
  pose proof (day_tables_length plan trades [] []) as Hl.
  unfold calculateDayMetrics, day_tables.
  destruct (fold_left (day_step plan) trades ([], [])) as [byDay outside].
  cbn [fst length] in Hl. cbn [dm_daysWithTrades].
  destruct (length byDay) as [|n] eqn:E; lia.
Qed.

Lemma insert_q_perm (x : Q) (l : list Q) : Permutation (x :: l) (insert_q x l).
Proof.
  induction l as [|y l IH]; cbn [insert_q]; [reflexivity|].
  destruct (Qle_bool y x); [|reflexivity].
  transitivity (y :: x :: l); [apply perm_swap | apply perm_skip; exact IH].
Qed.

Lemma sort_q_perm (l : list Q) : Permutation l (sort_q l).
Proof.
  induction l as [|x l IH]; cbn [sort_q]; [reflexivity|].
  transitivity (x :: sort_q l); [apply perm_skip; exact IH | apply insert_q_perm].
Qed.

(** X21: [calculateBasicMetrics] gives a win rate in [[0, 1]], at most one
    near-target hit and one early exit per trade, and a median target
    percentage within any bounds that hold for all non-null target
    percentages (when there is one). *)
Theorem basicMetrics_ranges (trades : list Trade) :
  let m := calculateBasicMetrics trades in
  0 <= bm_winRate m <= 1
  /\ (bm_nearTargetHits m <= length trades)%nat
  /\ (bm_earlyExits m <= length trades)%nat
  /\ forall a b, nonnull targetPercentAchieved trades <> [] ->
       Forall (fun x => a <= x <= b) (nonnull targetPercentAchieved trades) ->
       a <= bm_medianTargetPct m <= b.
Proof.
  cbv zeta. destruct trades as [|t ts].
  - cbn. split; [split; discriminate|]. split; [lia|]. split; [lia|].
    intros a b H. contradiction.
  - unfold calculateBasicMetrics. cbv zeta.
    cbn [bm_winRate bm_nearTargetHits bm_earlyExits bm_medianTargetPct].
    split; [|split; [apply filter_length_le|split; [apply filter_length_le|]]].
    + assert (Hn : 0 < qlen (t :: ts)) by (apply (qn_pos (length (t :: ts))); cbn; lia).
      pose proof (filter_length_le (fun x => Qlt_bool 0 (profitLoss x)) (t :: ts)) as Hw.
      split.
      * apply Qle_shift_div_l; [exact Hn|]. rewrite Qmult_0_l.
        exact (qn_nonneg _).
      * apply Qle_shift_div_r; [exact Hn|]. rewrite Qmult_1_l. exact (qn_le _ _ Hw).
    + intros a b Hne Hf. pose proof (sort_q_perm (nonnull targetPercentAchieved (t :: ts))) as Hp.
      apply computeMedian_bounds.
      * intros E. rewrite E in Hp. apply Permutation_sym, Permutation_nil in Hp. contradiction.
      * rewrite Forall_forall in *. intros x Hx. apply Hf.
        exact (Permutation_in _ (Permutation_sym Hp) Hx).
Qed.
